(** * PyNDN2: the Interest packet's change tracking, and the AES padding

    A shallow embedding of [python/pyndn/interest.py] and of
    [python/pyndn/encrypt/algo/aes_algorithm.py].

    Python integers are unbounded, so counters are [Z]; byte strings are
    [list byte]; a Python [float] is a binary64 [float]; a method that
    mutates [self] is a function from the object's state to a result and
    the next state. *)

From Stdlib Require Import ZArith String Ascii Bool Lia Floats DecimalString.
From Stdlib Require Import Strings.Byte.
From Stdlib Require Import List Permutation.
Import ListNotations.

Set Implicit Arguments.

(** ** Python exceptions and fallible results *)

Inductive PyError : Type :=
| RuntimeError (msg : string)
| IndexError
| ValueError.

Inductive result (A : Type) : Type :=
| Ok (a : A)
| Raise (e : PyError).

Arguments Ok {A} a.
Arguments Raise {A} e.

Definition result_bind {A B : Type} (r : result A) (k : A -> result B) : result B :=
  match r with
  | Ok a => k a
  | Raise e => Raise e
  end.

Declare Scope result_scope.
Delimit Scope result_scope with result.
Notation "'try' x <- c ; k" := (result_bind c (fun x => k))
  (at level 61, x pattern, c at next level, right associativity) : result_scope.

(** ** aes_algorithm.py *)

Module AesAlgorithm.

(** [seq[-1]]: the last item, [IndexError] on an empty sequence. *)
Fixpoint last_item {A : Type} (l : list A) : result A :=
  match l with
  | [] => Raise IndexError
  | [x] => Ok x
  | _ :: t => last_item t
  end.

(** [seq[:-k]] for [k >= 0].  Python reads [-0] as [0], so [seq[:-0]] is
    the empty prefix; a [k] beyond the length is clamped to the empty
    prefix as well. *)
Definition slice_until_neg {A : Type} (l : list A) (k : nat) : list A :=
  match k with
  | O => []
  | S _ => firstn (length l - k) l
  end.

(** [bytes([n]) * n] (and [chr(n) * n] when PyCrypto works on [str]):
    [ValueError] when [n] is not in [range(256)]. *)
Definition repeated_byte (n : nat) : result (list byte) :=
  match Byte.of_nat n with
  | Some b => Ok (repeat b n)
  | None => Raise ValueError
  end.

(** encrypt, line 118: [padLength = 16 - (plainData.size() % 16)]. *)
Definition padLength (plainData : list byte) : nat :=
  16 - (length plainData mod 16).

(** encrypt, lines 119-122: the pad that follows the plain data. *)
Definition pad (plainData : list byte) : result (list byte) :=
  repeated_byte (padLength plainData).

(** decrypt, lines 97-102: read the pad length from the last byte and
    drop that many trailing bytes. *)
Definition removePad (resultWithPad : list byte) : result (list byte) :=
  (try last <- last_item resultWithPad ;
   let padLength := Byte.to_nat last in
   Ok (slice_until_neg resultWithPad padLength))%result.

Inductive EncryptAlgorithmType : Type :=
| AesEcb
| AesCbc
| RsaPkcs
| RsaOaep.

Inductive AesMode : Type :=
| MODE_ECB
| MODE_CBC.

Record EncryptParams : Type := mkEncryptParams
  { getAlgorithmType : EncryptAlgorithmType;
    getInitialVector : list byte }.

Section Cipher.

(** PyCrypto's cipher object: [AES.new] builds one, [encrypt] and
    [decrypt] consume input and advance its chaining state. *)
Variable Cipher : Type.
Variable AES_new : list byte -> AesMode -> option (list byte) -> result Cipher.
Variable Cipher_encrypt : Cipher -> list byte -> result (list byte * Cipher).
Variable Cipher_decrypt : Cipher -> list byte -> result (list byte * Cipher).

(** Lines 86-93 of decrypt and 124-131 of encrypt: the same selection of
    the cipher mode. *)
Definition newCipher (keyBits : list byte) (params : EncryptParams) : result Cipher :=
  match getAlgorithmType params with
  | AesEcb => AES_new keyBits MODE_ECB None
  | AesCbc => AES_new keyBits MODE_CBC (Some (getInitialVector params))
  | _ => Raise (RuntimeError "unsupported encryption mode")
  end.

Definition decrypt (keyBits encryptedData : list byte) (params : EncryptParams)
  : result (list byte) :=
  (try cipher <- newCipher keyBits params ;
   try (resultWithPad, _) <- Cipher_decrypt cipher encryptedData ;
   removePad resultWithPad)%result.

Definition encrypt (keyBits plainData : list byte) (params : EncryptParams)
  : result (list byte) :=
  (try pad <- pad plainData ;
   try cipher <- newCipher keyBits params ;
   try (head, cipher) <- Cipher_encrypt cipher plainData ;
   try (tail, _) <- Cipher_encrypt cipher pad ;
   Ok (head ++ tail))%result.

End Cipher.

End AesAlgorithm.

(** ** The collaborators of interest.py *)

(** Modelled from the spec: [pyndn/util/blob.py] is not under src/.  The
    immutable byte buffer is a sequence of bytes with value equality;
    [Blob()] is the empty one, of [size()] 0. *)
Definition Blob : Type := list byte.

Definition Blob_new : Blob := [].

Definition Blob_size (b : Blob) : nat := length b.

Definition Blob_buf (b : Blob) : list byte := b.

(** Modelled from the spec: [pyndn/name.py], [pyndn/key_locator.py] and
    [pyndn/exclude.py] are not under src/.  The sub-object contract gives
    each an internal mutation counter, and the name and the exclusion
    filter a [size()] and a canonical textual form; the docstring of
    [getKeyLocator] names the key locator's [getType()], [None] when it
    is not specified. *)
Record Name : Type := mkName
  { Name_toUri : string;
    Name_size : nat;
    Name_getChangeCount : Z }.

Record KeyLocator : Type := mkKeyLocator
  { KeyLocator_getType : option Z;
    KeyLocator_getChangeCount : Z }.

Record Exclude : Type := mkExclude
  { Exclude_toUri : string;
    Exclude_size : nat;
    Exclude_getChangeCount : Z }.

(** Modelled from the spec: the default-constructed empty instances
    [KeyLocator()] and [Exclude()], with a fresh mutation counter. *)
Definition KeyLocator_new : KeyLocator := mkKeyLocator None 0.

Definition Exclude_new : Exclude := mkExclude "" 0 0.

(** The capability the wrapper asks of its target: a mutation counter. *)
Class ChangeCounted (T : Type) : Type :=
  getChangeCount_of : T -> Z.

#[export] Instance Name_counted : ChangeCounted Name := Name_getChangeCount.
#[export] Instance KeyLocator_counted : ChangeCounted KeyLocator := KeyLocator_getChangeCount.
#[export] Instance Exclude_counted : ChangeCounted Exclude := Exclude_getChangeCount.

(** Modelled from the spec: [pyndn/util/change_counter.py] is not under
    src/.  The change-tracked wrapper owns one value and a cached snapshot
    of that value's mutation counter (taken when the wrapper is built).
    [get] returns the owned value and leaves the tracking state alone;
    [set] replaces the owned value and does not itself update the
    snapshot; [checkChanged] reports whether the value's counter differs
    from the snapshot and always refreshes the snapshot. *)
Record ChangeCounter (T : Type) : Type := mkChangeCounter
  { _target : T;
    _snapshot : Z }.

Section ChangeCounter.

Context {T : Type} `{ChangeCounted T}.

Definition ChangeCounter_new (target : T) : ChangeCounter T :=
  mkChangeCounter target (getChangeCount_of target).

Definition ChangeCounter_get (c : ChangeCounter T) : T := _target c.

Definition ChangeCounter_set (c : ChangeCounter T) (target : T) : ChangeCounter T :=
  mkChangeCounter target (_snapshot c).

Definition checkChanged (c : ChangeCounter T) : bool * ChangeCounter T :=
  let targetChangeCount := getChangeCount_of (_target c) in
  (negb (_snapshot c =? targetChangeCount)%Z,
   mkChangeCounter (_target c) targetChangeCount).

End ChangeCounter.

(** The values a caller can hand to a setter, as far as the setters tell
    them apart: by [type(value)]. *)
Inductive PyType : Type :=
| type_NoneType
| type_str
| type_bytes
| type_Name
| type_KeyLocator
| type_Exclude
| type_Blob
| type_type.

Inductive PyValue : Type :=
| PyNone
| PyStr (s : string)
| PyBytes (b : list byte)
| PyName (n : Name)
| PyKeyLocator (k : KeyLocator)
| PyExclude (e : Exclude)
| PyBlob (b : Blob)
| PyClass (t : PyType).

(** [type(value)]. *)
Definition py_type (value : PyValue) : PyType :=
  match value with
  | PyNone => type_NoneType
  | PyStr _ => type_str
  | PyBytes _ => type_bytes
  | PyName _ => type_Name
  | PyKeyLocator _ => type_KeyLocator
  | PyExclude _ => type_Exclude
  | PyBlob _ => type_Blob
  | PyClass _ => type_type
  end.

Definition PyType_eqb (a b : PyType) : bool :=
  match a, b with
  | type_NoneType, type_NoneType
  | type_str, type_str
  | type_bytes, type_bytes
  | type_Name, type_Name
  | type_KeyLocator, type_KeyLocator
  | type_Exclude, type_Exclude
  | type_Blob, type_Blob
  | type_type, type_type => true
  | _, _ => false
  end.

(** [cls == value] for a class object [cls]: class objects compare by
    identity, so a class equals only that same class object and never an
    instance. *)
Definition class_eq (cls : PyType) (value : PyValue) : bool :=
  match value with
  | PyClass other => PyType_eqb cls other
  | _ => false
  end.

(** What interest.py calls and src/ does not hold: the constructors that
    build a sub-object or a buffer from a value of another type, [repr] of
    the numbers, and the percent-escaping of [Name.toEscapedString]. *)
Class Collaborators : Type := mkCollaborators
  { Name_init : PyValue -> Name;
    KeyLocator_init : PyValue -> KeyLocator;
    Exclude_init : PyValue -> Exclude;
    Blob_init : PyValue -> Blob;
    Name_toEscapedString : list byte -> string;
    repr_int : Z -> string;
    repr_float : float -> string }.

(** ** interest.py *)

Record Interest : Type := mkInterest
  { _name : ChangeCounter Name;
    _minSuffixComponents : option Z;
    _maxSuffixComponents : option Z;
    _keyLocator : ChangeCounter KeyLocator;
    _exclude : ChangeCounter Exclude;
    _childSelector : option Z;
    _mustBeFresh : bool;
    _nonce : Blob;
    _scope : option Z;
    _interestLifetimeMilliseconds : option float;
    _getNonceChangeCount : Z;
    _changeCount : Z }.

(** Assignment to one attribute of [self]. *)
Definition with_name (v : ChangeCounter Name) (self : Interest) : Interest :=
  mkInterest v (_minSuffixComponents self) (_maxSuffixComponents self)
    (_keyLocator self) (_exclude self) (_childSelector self)
    (_mustBeFresh self) (_nonce self) (_scope self)
    (_interestLifetimeMilliseconds self) (_getNonceChangeCount self)
    (_changeCount self).

Definition with_minSuffixComponents (v : option Z) (self : Interest) : Interest :=
  mkInterest (_name self) v (_maxSuffixComponents self) (_keyLocator self)
    (_exclude self) (_childSelector self) (_mustBeFresh self) (_nonce self)
    (_scope self) (_interestLifetimeMilliseconds self)
    (_getNonceChangeCount self) (_changeCount self).

Definition with_maxSuffixComponents (v : option Z) (self : Interest) : Interest :=
  mkInterest (_name self) (_minSuffixComponents self) v (_keyLocator self)
    (_exclude self) (_childSelector self) (_mustBeFresh self) (_nonce self)
    (_scope self) (_interestLifetimeMilliseconds self)
    (_getNonceChangeCount self) (_changeCount self).

Definition with_keyLocator (v : ChangeCounter KeyLocator) (self : Interest) : Interest :=
  mkInterest (_name self) (_minSuffixComponents self)
    (_maxSuffixComponents self) v (_exclude self) (_childSelector self)
    (_mustBeFresh self) (_nonce self) (_scope self)
    (_interestLifetimeMilliseconds self) (_getNonceChangeCount self)
    (_changeCount self).

Definition with_exclude (v : ChangeCounter Exclude) (self : Interest) : Interest :=
  mkInterest (_name self) (_minSuffixComponents self)
    (_maxSuffixComponents self) (_keyLocator self) v (_childSelector self)
    (_mustBeFresh self) (_nonce self) (_scope self)
    (_interestLifetimeMilliseconds self) (_getNonceChangeCount self)
    (_changeCount self).

Definition with_childSelector (v : option Z) (self : Interest) : Interest :=
  mkInterest (_name self) (_minSuffixComponents self)
    (_maxSuffixComponents self) (_keyLocator self) (_exclude self) v
    (_mustBeFresh self) (_nonce self) (_scope self)
    (_interestLifetimeMilliseconds self) (_getNonceChangeCount self)
    (_changeCount self).

Definition with_mustBeFresh (v : bool) (self : Interest) : Interest :=
  mkInterest (_name self) (_minSuffixComponents self)
    (_maxSuffixComponents self) (_keyLocator self) (_exclude self)
    (_childSelector self) v (_nonce self) (_scope self)
    (_interestLifetimeMilliseconds self) (_getNonceChangeCount self)
    (_changeCount self).

Definition with_nonce (v : Blob) (self : Interest) : Interest :=
  mkInterest (_name self) (_minSuffixComponents self)
    (_maxSuffixComponents self) (_keyLocator self) (_exclude self)
    (_childSelector self) (_mustBeFresh self) v (_scope self)
    (_interestLifetimeMilliseconds self) (_getNonceChangeCount self)
    (_changeCount self).

Definition with_scope (v : option Z) (self : Interest) : Interest :=
  mkInterest (_name self) (_minSuffixComponents self)
    (_maxSuffixComponents self) (_keyLocator self) (_exclude self)
    (_childSelector self) (_mustBeFresh self) (_nonce self) v
    (_interestLifetimeMilliseconds self) (_getNonceChangeCount self)
    (_changeCount self).

Definition with_interestLifetimeMilliseconds (v : option float) (self : Interest) : Interest :=
  mkInterest (_name self) (_minSuffixComponents self)
    (_maxSuffixComponents self) (_keyLocator self) (_exclude self)
    (_childSelector self) (_mustBeFresh self) (_nonce self) (_scope self) v
    (_getNonceChangeCount self) (_changeCount self).

Definition with_getNonceChangeCount (v : Z) (self : Interest) : Interest :=
  mkInterest (_name self) (_minSuffixComponents self)
    (_maxSuffixComponents self) (_keyLocator self) (_exclude self)
    (_childSelector self) (_mustBeFresh self) (_nonce self) (_scope self)
    (_interestLifetimeMilliseconds self) v (_changeCount self).

Definition with_changeCount (v : Z) (self : Interest) : Interest :=
  mkInterest (_name self) (_minSuffixComponents self)
    (_maxSuffixComponents self) (_keyLocator self) (_exclude self)
    (_childSelector self) (_mustBeFresh self) (_nonce self) (_scope self)
    (_interestLifetimeMilliseconds self) (_getNonceChangeCount self) v.

(** A method is a state transformer on [self] that returns a value. *)
Definition Method (A : Type) : Type := Interest -> A * Interest.

Definition ret {A : Type} (a : A) : Method A :=
  fun self => (a, self).

Definition bind {A B : Type} (m : Method A) (k : A -> Method B) : Method B :=
  fun self => let (a, self') := m self in k a self'.

(** [self.attribute]. *)
Definition attr {A : Type} (f : Interest -> A) : Method A :=
  fun self => (f self, self).

(** [self.attribute = value]. *)
Definition assign (f : Interest -> Interest) : Method unit :=
  fun self => (tt, f self).

Declare Scope method_scope.
Delimit Scope method_scope with method.
Notation "x <- m ;; k" := (bind m (fun x => k))
  (at level 61, m at next level, right associativity) : method_scope.
Notation "m ;; k" := (bind m (fun _ => k))
  (at level 61, right associativity) : method_scope.

(** The state a method leaves and the value it returns. *)
Definition exec {A : Type} (m : Method A) (self : Interest) : Interest := snd (m self).

Definition eval {A : Type} (m : Method A) (self : Interest) : A := fst (m self).

(** [s[1:]]. *)
Definition str_tail (s : string) : string :=
  match s with
  | EmptyString => EmptyString
  | String _ t => t
  end.

Section Interest.

Context {ext : Collaborators}.

Local Open Scope method_scope.

(** [name if type(name) == Name else Name(name)], and the same for a
    nonce and [Blob]. *)
Definition as_Name (name : PyValue) : Name :=
  match name with
  | PyName n => n
  | other => Name_init other
  end.

Definition as_Blob (nonce : PyValue) : Blob :=
  match nonce with
  | PyBlob b => b
  | other => Blob_init other
  end.

(** [__init__], lines 19-33. *)
Definition Interest_init (name : PyValue) : Interest :=
  mkInterest
    (ChangeCounter_new (as_Name name))
    None
    None
    (ChangeCounter_new KeyLocator_new)
    (ChangeCounter_new Exclude_new)
    None
    false
    Blob_new
    None
    None
    0
    0.

Definition getName : Method Name :=
  attr (fun self => ChangeCounter_get (_name self)).

Definition getMinSuffixComponents : Method (option Z) := attr _minSuffixComponents.

Definition getMaxSuffixComponents : Method (option Z) := attr _maxSuffixComponents.

Definition getKeyLocator : Method KeyLocator :=
  attr (fun self => ChangeCounter_get (_keyLocator self)).

Definition getExclude : Method Exclude :=
  attr (fun self => ChangeCounter_get (_exclude self)).

Definition getChildSelector : Method (option Z) := attr _childSelector.

Definition getMustBeFresh : Method bool := attr _mustBeFresh.

Definition getScope : Method (option Z) := attr _scope.

Definition getInterestLifetimeMilliseconds : Method (option float) :=
  attr _interestLifetimeMilliseconds.

(** [self._name.checkChanged()] and its two siblings: the wrapper inside
    [self] is polled in place. *)
Definition name_checkChanged : Method bool :=
  fun self => let (changed, w) := checkChanged (_name self) in (changed, with_name w self).

Definition keyLocator_checkChanged : Method bool :=
  fun self => let (changed, w) := checkChanged (_keyLocator self) in (changed, with_keyLocator w self).

Definition exclude_checkChanged : Method bool :=
  fun self => let (changed, w) := checkChanged (_exclude self) in (changed, with_exclude w self).

(** [self._changeCount += 1]. *)
Definition incrementChangeCount : Method unit :=
  assign (fun self => with_changeCount (_changeCount self + 1) self).

(** Lines 272-288.  In [x.checkChanged() or changed] the call is the left
    operand, so it runs whatever [changed] holds. *)
Definition getChangeCount : Method Z :=
  changed <- name_checkChanged ;;
  polled <- keyLocator_checkChanged ;;
  let changed := polled || changed in
  polled <- exclude_checkChanged ;;
  let changed := polled || changed in
  (if changed then incrementChangeCount else ret tt) ;;
  attr _changeCount.

(** Lines 101-114. *)
Definition getNonce : Method Blob :=
  seen <- attr _getNonceChangeCount ;;
  current <- getChangeCount ;;
  (if negb (seen =? current)%Z
   then
     assign (with_nonce Blob_new) ;;
     current <- getChangeCount ;;
     assign (with_getNonceChangeCount current)
   else ret tt) ;;
  attr _nonce.

(** Lines 134-136. *)
Definition setName (name : PyValue) : Method unit :=
  assign (fun self => with_name (ChangeCounter_set (_name self) (as_Name name)) self) ;;
  incrementChangeCount.

Definition setMinSuffixComponents (minSuffixComponents : option Z) : Method unit :=
  assign (with_minSuffixComponents minSuffixComponents) ;;
  incrementChangeCount.

Definition setMaxSuffixComponents (maxSuffixComponents : option Z) : Method unit :=
  assign (with_maxSuffixComponents maxSuffixComponents) ;;
  incrementChangeCount.

(** Lines 146-158.  The test compares the class [type(keyLocator)] with
    the instance [KeyLocator(keyLocator)]; the wrapper holds a key locator,
    so the argument can be kept only when it is one. *)
Definition setKeyLocator (keyLocator : PyValue) : Method unit :=
  let same := class_eq (py_type keyLocator) (PyKeyLocator (KeyLocator_init keyLocator)) in
  let chosen :=
    match keyLocator with
    | PyKeyLocator k => if same then k else KeyLocator_new
    | _ => KeyLocator_new
    end in
  assign (fun self => with_keyLocator (ChangeCounter_set (_keyLocator self) chosen) self) ;;
  incrementChangeCount.

(** Lines 160-171, the same test with [Exclude]. *)
Definition setExclude (exclude : PyValue) : Method unit :=
  let same := class_eq (py_type exclude) (PyExclude (Exclude_init exclude)) in
  let chosen :=
    match exclude with
    | PyExclude e => if same then e else Exclude_new
    | _ => Exclude_new
    end in
  assign (fun self => with_exclude (ChangeCounter_set (_exclude self) chosen) self) ;;
  incrementChangeCount.

Definition setChildSelector (childSelector : option Z) : Method unit :=
  assign (with_childSelector childSelector) ;;
  incrementChangeCount.

(** [True if mustBeFresh else False]. *)
Definition setMustBeFresh (mustBeFresh : bool) : Method unit :=
  assign (with_mustBeFresh (if mustBeFresh then true else false)) ;;
  incrementChangeCount.

(** Lines 181-186. *)
Definition setNonce (nonce : PyValue) : Method unit :=
  assign (with_nonce (as_Blob nonce)) ;;
  incrementChangeCount ;;
  current <- getChangeCount ;;
  assign (with_getNonceChangeCount current).

Definition setScope (scope : option Z) : Method unit :=
  assign (with_scope scope) ;;
  incrementChangeCount.

(** Lines 192-196; a [float] argument is its own [float(...)]. *)
Definition setInterestLifetimeMilliseconds (interestLifetimeMilliseconds : option float)
  : Method unit :=
  assign (with_interestLifetimeMilliseconds interestLifetimeMilliseconds) ;;
  incrementChangeCount.

Local Notation "a +s b" := (String.append a b) (at level 60, right associativity).

(** One [if ...: selectors += "&ndn.X=" + text] of [toUri]. *)
Definition selector (key : string) (text : option string) (selectors : string) : string :=
  match text with
  | Some t => selectors +s key +s t
  | None => selectors
  end.

(** Lines 232-270. *)
Definition toUri : Method string :=
  let selectors := ""%string in
  minSuffixComponents <- attr _minSuffixComponents ;;
  let selectors :=
    selector "&ndn.MinSuffixComponents=" (option_map repr_int minSuffixComponents) selectors in
  maxSuffixComponents <- attr _maxSuffixComponents ;;
  let selectors :=
    selector "&ndn.MaxSuffixComponents=" (option_map repr_int maxSuffixComponents) selectors in
  childSelector <- attr _childSelector ;;
  let selectors := selector "&ndn.ChildSelector=" (option_map repr_int childSelector) selectors in
  mustBeFresh <- attr _mustBeFresh ;;
  let selectors := if mustBeFresh then selectors +s "&ndn.MustBeFresh=true" else selectors in
  scope <- attr _scope ;;
  let selectors := selector "&ndn.Scope=" (option_map repr_int scope) selectors in
  interestLifetimeMilliseconds <- attr _interestLifetimeMilliseconds ;;
  let selectors :=
    selector "&ndn.InterestLifetime=" (option_map repr_float interestLifetimeMilliseconds)
      selectors in
  nonce <- getNonce ;;
  selectors <-
    (if (0 <? Blob_size nonce)%nat
     then
       nonce <- getNonce ;;
       ret (selectors +s "&ndn.Nonce=" +s Name_toEscapedString (Blob_buf nonce))
     else ret selectors) ;;
  exclude <- getExclude ;;
  selectors <-
    (if (0 <? Exclude_size exclude)%nat
     then
       exclude <- getExclude ;;
       ret (selectors +s "&ndn.Exclude=" +s Exclude_toUri exclude)
     else ret selectors) ;;
  name <- getName ;;
  let result := Name_toUri name in
  ret (if negb (String.eqb selectors "") then result +s "?" +s str_tail selectors else result).

(** *** The URI as the specification words it

    The name's text, then the segments that are present, in the fixed
    order, joined with [&] after a leading [?].  [nonce] is the nonce as
    [getNonce] returns it. *)

Definition segment (key : string) (text : option string) : list string :=
  match text with
  | Some t => [key +s t]
  | None => []
  end.

Definition selector_segments (self : Interest) : list string :=
  segment "ndn.MinSuffixComponents=" (option_map repr_int (_minSuffixComponents self)) ++
  segment "ndn.MaxSuffixComponents=" (option_map repr_int (_maxSuffixComponents self)) ++
  segment "ndn.ChildSelector=" (option_map repr_int (_childSelector self)) ++
  (if _mustBeFresh self then ["ndn.MustBeFresh=true"%string] else []) ++
  segment "ndn.Scope=" (option_map repr_int (_scope self)) ++
  segment "ndn.InterestLifetime="
    (option_map repr_float (_interestLifetimeMilliseconds self)).

Definition nonce_segment (nonce : Blob) : list string :=
  if (0 <? Blob_size nonce)%nat
  then ["ndn.Nonce=" +s Name_toEscapedString (Blob_buf nonce)] else [].

Definition exclude_segment (self : Interest) : list string :=
  if (0 <? Exclude_size (_target (_exclude self)))%nat
  then ["ndn.Exclude=" +s Exclude_toUri (_target (_exclude self))] else [].

Definition query_segments (self : Interest) (nonce : Blob) : list string :=
  selector_segments self ++ nonce_segment nonce ++ exclude_segment self.

Definition query (segments : list string) : string :=
  match segments with
  | [] => ""%string
  | _ :: _ => "?" +s String.concat "&" segments
  end.

Definition toUri_spec (self : Interest) (nonce : Blob) : string :=
  Name_toUri (_target (_name self)) +s query (query_segments self nonce).

(** *** Callers *)

(** The setters that take a scalar or replace a sub-object. *)
Inductive Setter : Type :=
| SetName (name : PyValue)
| SetMinSuffixComponents (minSuffixComponents : option Z)
| SetMaxSuffixComponents (maxSuffixComponents : option Z)
| SetKeyLocator (keyLocator : PyValue)
| SetExclude (exclude : PyValue)
| SetChildSelector (childSelector : option Z)
| SetMustBeFresh (mustBeFresh : bool)
| SetScope (scope : option Z)
| SetInterestLifetimeMilliseconds (interestLifetimeMilliseconds : option float).

Definition call_setter (s : Setter) : Method unit :=
  match s with
  | SetName v => setName v
  | SetMinSuffixComponents v => setMinSuffixComponents v
  | SetMaxSuffixComponents v => setMaxSuffixComponents v
  | SetKeyLocator v => setKeyLocator v
  | SetExclude v => setExclude v
  | SetChildSelector v => setChildSelector v
  | SetMustBeFresh v => setMustBeFresh v
  | SetScope v => setScope v
  | SetInterestLifetimeMilliseconds v => setInterestLifetimeMilliseconds v
  end.

(** The field a call assigns. *)
Inductive Field : Type :=
| FName
| FMinSuffixComponents
| FMaxSuffixComponents
| FKeyLocator
| FExclude
| FChildSelector
| FMustBeFresh
| FScope
| FInterestLifetimeMilliseconds
| FNonce.

Definition setter_field (s : Setter) : Field :=
  match s with
  | SetName _ => FName
  | SetMinSuffixComponents _ => FMinSuffixComponents
  | SetMaxSuffixComponents _ => FMaxSuffixComponents
  | SetKeyLocator _ => FKeyLocator
  | SetExclude _ => FExclude
  | SetChildSelector _ => FChildSelector
  | SetMustBeFresh _ => FMustBeFresh
  | SetScope _ => FScope
  | SetInterestLifetimeMilliseconds _ => FInterestLifetimeMilliseconds
  end.

(** What a caller can do with an Interest: call a method, or change in
    place a sub-object it got by reference from [getName], [getKeyLocator]
    or [getExclude] (the wrapper's snapshot stays as it was). *)
Inductive Call : Type :=
| CallSetter (s : Setter)
| CallSetNonce (nonce : PyValue)
| CallGetNonce
| CallGetChangeCount
| CallToUri
| MutateName (name : Name)
| MutateKeyLocator (keyLocator : KeyLocator)
| MutateExclude (exclude : Exclude).

Definition mutateName (name : Name) : Method unit :=
  assign (fun self => with_name (mkChangeCounter name (_snapshot (_name self))) self).

Definition mutateKeyLocator (keyLocator : KeyLocator) : Method unit :=
  assign (fun self =>
            with_keyLocator (mkChangeCounter keyLocator (_snapshot (_keyLocator self))) self).

Definition mutateExclude (exclude : Exclude) : Method unit :=
  assign (fun self => with_exclude (mkChangeCounter exclude (_snapshot (_exclude self))) self).

Definition call (c : Call) : Method unit :=
  match c with
  | CallSetter s => call_setter s
  | CallSetNonce v => setNonce v
  | CallGetNonce => getNonce ;; ret tt
  | CallGetChangeCount => getChangeCount ;; ret tt
  | CallToUri => toUri ;; ret tt
  | MutateName n => mutateName n
  | MutateKeyLocator k => mutateKeyLocator k
  | MutateExclude e => mutateExclude e
  end.

Definition call_field (c : Call) : option Field :=
  match c with
  | CallSetter s => Some (setter_field s)
  | CallSetNonce _ => Some FNonce
  | _ => None
  end.

(** The calls of a list, first to last. *)
Fixpoint run (calls : list Call) (self : Interest) : Interest :=
  match calls with
  | [] => self
  | c :: rest => run rest (exec (call c) self)
  end.

End Interest.

(** *** A choice of collaborators

    One instance of the absent constructors and printers, to run the
    methods on concrete packets: a value of a foreign type builds the
    empty sub-object, bytes build their buffer, integers print in
    decimal and the escaping keeps the bytes as they are. *)

Definition demo_Blob_init (value : PyValue) : Blob :=
  match value with
  | PyBytes b => b
  | _ => Blob_new
  end.

Definition demo_collaborators : Collaborators :=
  mkCollaborators
    (fun _ => mkName "/" 0 0)
    (fun _ => KeyLocator_new)
    (fun _ => Exclude_new)
    demo_Blob_init
    string_of_list_byte
    (fun z => DecimalString.NilZero.string_of_int (Z.to_int z))
    (fun _ => "0.0"%string).

(** The name [/a/b], a key locator of type 1 (a key name) and an
    exclusion filter of one component. *)
Definition name_a_b : Name := mkName "/a/b" 2 2.

Definition keyName_locator : KeyLocator := mkKeyLocator (Some 1%Z) 1.

Definition exclude_c : Exclude := mkExclude "c" 1 1.

(** A packet built for [/a/b] with those collaborators, and the same
    packet once the caller has appended a component to its name in
    place. *)
Definition demo_interest : Interest :=
  Interest_init (ext := demo_collaborators) (PyName name_a_b).

Definition name_a_b_c : Name := mkName "/a/b/c" 3 3.

Definition nonce_A : PyValue := PyBytes ["A"%byte].



(** *** What a poll finds and leaves *)

(** The result and the effect of [checkChanged], apart. *)
Definition pending {T : Type} `{ChangeCounted T} (c : ChangeCounter T) : bool :=
  fst (checkChanged c).

Definition refreshed {T : Type} `{ChangeCounted T} (c : ChangeCounter T) : ChangeCounter T :=
  snd (checkChanged c).

Definition anyPending (self : Interest) : bool :=
  pending (_name self) || pending (_keyLocator self) || pending (_exclude self).

Definition polled (self : Interest) : Interest :=
  with_exclude (refreshed (_exclude self))
    (with_keyLocator (refreshed (_keyLocator self))
       (with_name (refreshed (_name self)) self)).

(** *** The fields a method must leave alone

    Everything a caller assigns, the nonce apart: the three owned
    sub-objects and the scalar selectors. *)
Definition same_fields (a b : Interest) : Prop :=
  _target (_name a) = _target (_name b) /\
  _minSuffixComponents a = _minSuffixComponents b /\
  _maxSuffixComponents a = _maxSuffixComponents b /\
  _target (_keyLocator a) = _target (_keyLocator b) /\
  _target (_exclude a) = _target (_exclude b) /\
  _childSelector a = _childSelector b /\
  _mustBeFresh a = _mustBeFresh b /\
  _scope a = _scope b /\
  _interestLifetimeMilliseconds a = _interestLifetimeMilliseconds b.

(** [selectors] as [toUri] accumulates it: every segment after an [&]. *)
Fixpoint ampersands (segments : list string) : string :=
  match segments with
  | [] => ""%string
  | seg :: rest => String.append "&" (String.append seg (ampersands rest))
  end.

(** *** Calls that only read *)

(** [getNonce], [getChangeCount] and [toUri] assign no field a caller
    set; the other calls assign one or change a sub-object in place. *)
Definition is_read (c : Call) : bool :=
  match c with
  | CallGetNonce | CallGetChangeCount | CallToUri => true
  | _ => false
  end.

(** ** encrypt_error.py *)

Module EncryptError.

(** The attributes of [EncryptError.ErrorCode], lines 28-34, and the
    integer each one holds. *)
Inductive ErrorCode : Type :=
| Timeout
| Validation
| UnsupportedEncryptionScheme
| InvalidEncryptedFormat
| NoDecryptKey
| General.

Definition value (code : ErrorCode) : Z :=
  match code with
  | Timeout => 1
  | Validation => 2
  | UnsupportedEncryptionScheme => 32
  | InvalidEncryptedFormat => 33
  | NoDecryptKey => 34
  | General => 100
  end.

End EncryptError.

(** A cipher object that takes whole blocks of 16 bytes only and keeps
    the bytes as they are, to run [encrypt] and [decrypt]. *)
Definition whole_blocks_only (c : unit) (data : list byte) : result (list byte * unit) :=
  if (length data mod 16 =? 0)%nat then Ok (data, c) else Raise ValueError.

(** * Properties *)

(** ** The aggregate poll *)

Section Polling.

Local Open Scope Z_scope.

Lemma checkChanged_refreshes (T : Type) (H : ChangeCounted T) (c : ChangeCounter T) :
  checkChanged (snd (checkChanged c)) = (false, snd (checkChanged c)).
Proof.
  unfold checkChanged; simpl.
  now rewrite Z.eqb_refl.
Qed.

Lemma getChangeCount_unfold (self : Interest) :
  getChangeCount self =
  (let count := if anyPending self then _changeCount self + 1 else _changeCount self in
   (count, with_changeCount count (polled self))).
Proof.
  unfold getChangeCount, anyPending, polled, pending, refreshed, bind, attr, ret, assign,
    name_checkChanged, keyLocator_checkChanged, exclude_checkChanged, incrementChangeCount.
  destruct self as [n mn mx k e ch mf no sc li gn cc]; simpl.
  destruct (negb (_snapshot n =? getChangeCount_of (_target n)));
    destruct (negb (_snapshot k =? getChangeCount_of (_target k)));
    destruct (negb (_snapshot e =? getChangeCount_of (_target e))); reflexivity.
Qed.

Lemma getChangeCount_count (self : Interest) :
  eval getChangeCount self = _changeCount (exec getChangeCount self).
Proof.
  unfold eval, exec; rewrite getChangeCount_unfold; reflexivity.
Qed.

Lemma anyPending_after_poll (self : Interest) :
  anyPending (exec getChangeCount self) = false.
Proof.
  unfold exec; rewrite getChangeCount_unfold.
  destruct self as [n mn mx k e ch mf no sc li gn cc].
  unfold anyPending, pending, polled, refreshed, checkChanged; simpl.
  now rewrite !Z.eqb_refl.
Qed.

Lemma polled_settled (self : Interest) :
  anyPending self = false -> polled self = self.
Proof.
  destruct self as [[n sn] mn mx [k sk] [e se] ch mf no sc li gn cc].
  unfold anyPending, pending, polled, refreshed, checkChanged; simpl.
  intros H.
  apply orb_false_elim in H as [H He]; apply orb_false_elim in H as [Hn Hk].
  apply negb_false_iff, Z.eqb_eq in Hn, Hk, He.
  now rewrite <- Hn, <- Hk, <- He.
Qed.

Lemma getChangeCount_settled (self : Interest) :
  anyPending self = false -> getChangeCount self = (_changeCount self, self).
Proof.
  intros H; rewrite getChangeCount_unfold, H; simpl.
  rewrite (polled_settled _ H).
  now destruct self.
Qed.

Lemma getChangeCount_twice (self : Interest) :
  getChangeCount (exec getChangeCount self) =
  (eval getChangeCount self, exec getChangeCount self).
Proof.
  rewrite getChangeCount_settled by apply anyPending_after_poll.
  now rewrite getChangeCount_count.
Qed.

(** The poll touches the three snapshots and the count, nothing else. *)
Lemma anyPending_with_nonce (b : Blob) (self : Interest) :
  anyPending (with_nonce b self) = anyPending self.
Proof. reflexivity. Qed.

Lemma anyPending_with_getNonceChangeCount (c : Z) (self : Interest) :
  anyPending (with_getNonceChangeCount c self) = anyPending self.
Proof. reflexivity. Qed.

Lemma getNonce_unfold (self : Interest) :
  getNonce self =
  (let current := eval getChangeCount self in
   let self' := exec getChangeCount self in
   if _getNonceChangeCount self =? current
   then (_nonce self, self')
   else (Blob_new, with_getNonceChangeCount current (with_nonce Blob_new self'))).
Proof.
  unfold getNonce, bind, attr, ret, assign; simpl.
  unfold eval, exec.
  destruct (getChangeCount self) as [current self'] eqn:E; simpl.
  assert (Hs : self' = exec getChangeCount self) by (unfold exec; now rewrite E).
  assert (Hc : current = _changeCount self').
  { rewrite Hs, <- getChangeCount_count; unfold eval; now rewrite E. }
  assert (Hg : _getNonceChangeCount self' = _getNonceChangeCount self).
  { rewrite Hs; unfold exec; rewrite getChangeCount_unfold; now destruct self. }
  assert (Hn : _nonce self' = _nonce self).
  { rewrite Hs; unfold exec; rewrite getChangeCount_unfold; now destruct self. }
  destruct (_getNonceChangeCount self =? current); simpl.
  - now rewrite Hn.
  - rewrite getChangeCount_settled.
    + simpl; now rewrite Hc.
    + rewrite anyPending_with_nonce, Hs; apply anyPending_after_poll.
Qed.

End Polling.

(** ** Setters, the nonce and the change count *)

Section InterestFacts.

Context {ext : Collaborators}.

Local Open Scope Z_scope.

Lemma getChangeCount_ge (self : Interest) :
  _changeCount self <= eval getChangeCount self.
Proof.
  unfold eval; rewrite getChangeCount_unfold; simpl.
  destruct (anyPending self); lia.
Qed.

Lemma getChangeCount_keeps_nonce (self : Interest) :
  _nonce (exec getChangeCount self) = _nonce self /\
  _getNonceChangeCount (exec getChangeCount self) = _getNonceChangeCount self.
Proof.
  unfold exec; rewrite getChangeCount_unfold; now destruct self.
Qed.

Lemma getNonce_valid (self : Interest) :
  anyPending self = false ->
  _getNonceChangeCount self = _changeCount self ->
  getNonce self = (_nonce self, self).
Proof.
  intros Hp Hv.
  rewrite getNonce_unfold; unfold eval, exec.
  rewrite (getChangeCount_settled _ Hp); simpl.
  now rewrite Hv, Z.eqb_refl.
Qed.

Lemma getNonce_stale (self : Interest) :
  _getNonceChangeCount self < _changeCount self ->
  eval getNonce self = Blob_new.
Proof.
  intros Hlt.
  unfold eval at 1; rewrite getNonce_unfold; simpl.
  pose proof (getChangeCount_ge self) as Hge.
  destruct (Z.eqb_spec (_getNonceChangeCount self) (eval getChangeCount self)); [lia | reflexivity].
Qed.

Lemma setNonce_unfold (nonce : PyValue) (self : Interest) :
  exec (setNonce nonce) self =
  (let self' :=
     exec getChangeCount
       (with_changeCount (_changeCount self + 1) (with_nonce (as_Blob nonce) self)) in
   with_getNonceChangeCount (_changeCount self') self').
Proof.
  unfold setNonce, exec at 1, bind, assign, incrementChangeCount; simpl.
  destruct (getChangeCount _) as [current self'] eqn:E; simpl.
  assert (Hs : self' = exec getChangeCount
                 (with_changeCount (_changeCount self + 1) (with_nonce (as_Blob nonce) self))).
  { unfold exec. destruct self; simpl in *. now rewrite E. }
  rewrite <- Hs.
  replace current with (_changeCount self'); [reflexivity |].
  rewrite Hs, <- getChangeCount_count; unfold eval.
  destruct self; simpl in *. now rewrite E.
Qed.

Lemma setNonce_settles (nonce : PyValue) (self : Interest) :
  let self' := exec (setNonce nonce) self in
  anyPending self' = false /\
  _getNonceChangeCount self' = _changeCount self' /\
  _nonce self' = as_Blob nonce /\
  _changeCount self < _changeCount self'.
Proof.
  simpl; rewrite setNonce_unfold; simpl.
  set (s0 := with_changeCount _ _).
  pose proof (anyPending_after_poll s0) as Hp.
  pose proof (getChangeCount_keeps_nonce s0) as [Hn _].
  pose proof (getChangeCount_ge s0) as Hge.
  rewrite getChangeCount_count in Hge.
  repeat split.
  - rewrite anyPending_with_getNonceChangeCount; exact Hp.
  - rewrite Hn; reflexivity.
  - simpl in Hge; lia.
Qed.

(** A scalar or sub-object setter adds one to the count and leaves the
    nonce and its snapshot as they were. *)
Lemma call_setter_effect (s : Setter) (self : Interest) :
  let self' := exec (call_setter s) self in
  _changeCount self' = _changeCount self + 1 /\
  _nonce self' = _nonce self /\
  _getNonceChangeCount self' = _getNonceChangeCount self.
Proof.
  destruct self; destruct s; simpl; repeat split; reflexivity.
Qed.

Lemma getNonce_settles (self : Interest) :
  let self' := exec getNonce self in
  anyPending self' = false /\
  _getNonceChangeCount self' = _changeCount self' /\
  _nonce self' = eval getNonce self /\
  _changeCount self' = eval getChangeCount self.
Proof.
  simpl; unfold exec at 1 2 3 4 5, eval at 1; rewrite getNonce_unfold; simpl.
  pose proof (anyPending_after_poll self) as Hp.
  pose proof (getChangeCount_keeps_nonce self) as [Hn Hg].
  pose proof (getChangeCount_count self) as Hc.
  destruct (Z.eqb_spec (_getNonceChangeCount self) (eval getChangeCount self)) as [Heq | Hne];
    simpl.
  - repeat split; try assumption; try congruence.
  - repeat split; try assumption. now symmetry.
Qed.

Lemma getNonce_twice (self : Interest) :
  getNonce (exec getNonce self) = (eval getNonce self, exec getNonce self).
Proof.
  destruct (getNonce_settles self) as (Hp & Hv & Hn & _).
  rewrite (getNonce_valid _ Hp Hv); now rewrite Hn.
Qed.

(** After a poll, by [getChangeCount] or by [getNonce], every snapshot
    is the counter of the value it tracks. *)
Lemma snapshots_current_after_poll (self : Interest) :
  (forall self' : Interest,
      self' = exec getChangeCount self \/ self' = exec getNonce self ->
      _snapshot (_name self') = Name_getChangeCount (_target (_name self')) /\
      _snapshot (_keyLocator self') =
      KeyLocator_getChangeCount (_target (_keyLocator self')) /\
      _snapshot (_exclude self') = Exclude_getChangeCount (_target (_exclude self'))).
Proof.
  assert (Hsettled : forall s : Interest,
             anyPending s = false ->
             _snapshot (_name s) = Name_getChangeCount (_target (_name s)) /\
             _snapshot (_keyLocator s) = KeyLocator_getChangeCount (_target (_keyLocator s)) /\
             _snapshot (_exclude s) = Exclude_getChangeCount (_target (_exclude s))).
  { intros [[n sn] mn mx [k sk] [e se] ch mf no sc li gn cc].
    unfold anyPending, pending, checkChanged, getChangeCount_of,
      Name_counted, KeyLocator_counted, Exclude_counted; simpl.
    intros H.
    apply orb_false_elim in H as [H He]; apply orb_false_elim in H as [Hn Hk].
    apply negb_false_iff, Z.eqb_eq in Hn, Hk, He. auto. }
  intros self' [-> | ->]; apply Hsettled.
  - apply anyPending_after_poll.
  - apply getNonce_settles.
Qed.

(** C1: right after [setNonce(b)], [getNonce()] returns [b]; after
    [setNonce(b)] and then any scalar or sub-object setter it returns the
    empty buffer, of size 0.  In general a read returns the stored nonce
    untouched when the nonce snapshot equals the recomputed change count,
    and otherwise clears the nonce and refreshes the snapshot to that
    count; a stored nonce that is not empty comes back unchanged exactly
    when the two are equal. *)
Theorem nonce_valid_until_next_change :
  (forall (self : Interest) (nonce : PyValue),
      eval getNonce (exec (setNonce nonce) self) = as_Blob nonce) /\
  (forall (self : Interest) (b : Blob),
      eval getNonce (exec (setNonce (PyBlob b)) self) = b) /\
  (forall (self : Interest) (nonce : PyValue) (s : Setter),
      let read := eval getNonce (exec (call_setter s) (exec (setNonce nonce) self)) in
      read = Blob_new /\ Blob_size read = 0%nat) /\
  (forall self : Interest,
      let current := eval getChangeCount self in
      let self' := exec getNonce self in
      (_getNonceChangeCount self = current ->
       eval getNonce self = _nonce self /\
       _nonce self' = _nonce self /\
       _getNonceChangeCount self' = _getNonceChangeCount self) /\
      (_getNonceChangeCount self <> current ->
       eval getNonce self = Blob_new /\
       _nonce self' = Blob_new /\
       _getNonceChangeCount self' = current /\
       _changeCount self' = current) /\
      (_nonce self <> Blob_new ->
       eval getNonce self = _nonce self <-> _getNonceChangeCount self = current)).
Proof.
  assert (Hset : forall self nonce,
             eval getNonce (exec (setNonce nonce) self) = as_Blob nonce).
  { intros self nonce.
    destruct (setNonce_settles nonce self) as (Hp & Hv & Hn & _).
    unfold eval; now rewrite (getNonce_valid _ Hp Hv). }
  split; [exact Hset |].
  split; [intros self b; exact (Hset self (PyBlob b)) |].
  split.
  - intros self nonce s; simpl.
    destruct (setNonce_settles nonce self) as (_ & Hv & _ & _).
    destruct (call_setter_effect s (exec (setNonce nonce) self)) as (Hc & _ & Hg).
    rewrite getNonce_stale; [split; reflexivity | lia].
  - intros self; simpl.
    destruct (getNonce_settles self) as (_ & Hv & Hn & Hc).
    assert (Hread : eval getNonce self =
                    if _getNonceChangeCount self =? eval getChangeCount self
                    then _nonce self else Blob_new).
    { unfold eval at 1; rewrite getNonce_unfold; simpl.
      now destruct (_getNonceChangeCount self =? eval getChangeCount self). }
    split; [| split].
    + intros Heq. rewrite Hn, Hread, Hv, Hc.
      apply Z.eqb_eq in Heq as Heqb; rewrite Heqb. auto.
    + intros Hne. rewrite Hn, Hread, Hv, Hc.
      apply Z.eqb_neq in Hne as Hneb; rewrite Hneb. auto.
    + intros Hstored; rewrite Hread.
      destruct (Z.eqb_spec (_getNonceChangeCount self) (eval getChangeCount self));
        split; intros; congruence.
Qed.

(** C2: every call polls the three wrappers (each snapshot ends equal to
    its value's counter, the value itself untouched), adds exactly one to
    the change count when at least one poll reported a change and nothing
    otherwise, and returns the resulting change count. *)
Theorem getChangeCount_polls_all_and_counts_once (self : Interest) :
  let changed :=
    fst (checkChanged (_name self)) || fst (checkChanged (_keyLocator self))
    || fst (checkChanged (_exclude self)) in
  let self' := exec getChangeCount self in
  _name self' = snd (checkChanged (_name self)) /\
  _keyLocator self' = snd (checkChanged (_keyLocator self)) /\
  _exclude self' = snd (checkChanged (_exclude self)) /\
  _snapshot (_name self') = Name_getChangeCount (_target (_name self)) /\
  _snapshot (_keyLocator self') = KeyLocator_getChangeCount (_target (_keyLocator self)) /\
  _snapshot (_exclude self') = Exclude_getChangeCount (_target (_exclude self)) /\
  _changeCount self' = _changeCount self + (if changed then 1 else 0) /\
  eval getChangeCount self = _changeCount self'.
Proof.
  simpl; unfold exec, eval; rewrite getChangeCount_unfold.
  destruct self as [n mn mx k e ch mf no sc li gn cc]; unfold anyPending, pending; simpl.
  repeat split.
  destruct (negb (_snapshot n =? _)), (negb (_snapshot k =? _)), (negb (_snapshot e =? _));
    simpl; lia.
Qed.

(** C6: a second [getChangeCount()] right after a first returns the same
    value, and leaves the Interest as the first call left it. *)
Theorem getChangeCount_idempotent (self : Interest) :
  eval getChangeCount (exec getChangeCount self) = eval getChangeCount self /\
  exec getChangeCount (exec getChangeCount self) = exec getChangeCount self /\
  anyPending (exec getChangeCount self) = false.
Proof.
  pose proof (getChangeCount_twice self) as Htwice.
  split; [| split].
  - unfold eval at 1; now rewrite Htwice.
  - unfold exec at 1; now rewrite Htwice.
  - apply anyPending_after_poll.
Qed.

(** The snapshot of the name differs from the counter of a changed name
    whenever it is not ahead of the counter the name had, and so after
    every poll. *)
Lemma name_snapshot_differs (self : Interest) (name : Name) :
  (_snapshot (_name self) <= Name_getChangeCount (_target (_name self)) ->
   Name_getChangeCount (_target (_name self)) < Name_getChangeCount name ->
   _snapshot (_name self) <> Name_getChangeCount name) /\
  (forall before : Interest,
      self = exec getChangeCount before \/ self = exec getNonce before ->
      Name_getChangeCount (_target (_name self)) <> Name_getChangeCount name ->
      _snapshot (_name self) <> Name_getChangeCount name).
Proof.
  split; [lia |].
  intros before Hpoll Hchanged.
  destruct (snapshots_current_after_poll before Hpoll) as (Hn & _).
  congruence.
Qed.

(** A change of the name that brings its counter up to the snapshot is
    not seen: with nothing else pending the poll adds nothing. *)
Lemma name_change_up_to_snapshot_unseen (self : Interest) (name : Name) :
  _snapshot (_name self) = Name_getChangeCount name ->
  pending (_keyLocator self) = false ->
  pending (_exclude self) = false ->
  getChangeCount (exec (mutateName name) self) =
  (_changeCount self, exec (mutateName name) self).
Proof.
  intros Hsame Hk He.
  rewrite getChangeCount_settled; [now destruct self |].
  destruct self as [[n sn] mn mx k e ch mf no sc li gn cc].
  unfold anyPending, pending, checkChanged, getChangeCount_of, Name_counted in *;
    simpl in *.
  rewrite Hk, He. subst sn. now rewrite Z.eqb_refl.
Qed.


End InterestFacts.

(** ** The canonical URI *)

Section Uri.

Context {ext : Collaborators}.

Local Notation "a +s b" := (String.append a b) (at level 60, right associativity).

Lemma append_nil_r (s : string) : s +s "" = s.
Proof. induction s; simpl; congruence. Qed.

Lemma append_assoc (a b c : string) : (a +s b) +s c = a +s b +s c.
Proof. induction a; simpl; congruence. Qed.

Lemma ampersands_app (l r : list string) :
  ampersands (l ++ r) = ampersands l +s ampersands r.
Proof.
  induction l as [| seg l IH]; simpl; [reflexivity |].
  now rewrite IH, append_assoc.
Qed.

Lemma ampersands_concat (seg : string) (rest : list string) :
  seg +s ampersands rest = String.concat "&" (seg :: rest).
Proof.
  revert seg; induction rest as [| next rest IH]; intros seg.
  - apply append_nil_r.
  - simpl ampersands; rewrite (IH next); reflexivity.
Qed.

Lemma selector_segment (key : string) (text : option string) (selectors : string) :
  selector ("&" +s key) text selectors = selectors +s ampersands (segment key text).
Proof.
  destruct text; simpl.
  - now rewrite append_nil_r.
  - now rewrite append_nil_r.
Qed.

(** The last lines of [toUri], 265-270, on the accumulated selectors. *)
Lemma query_of_ampersands (result : string) (segments : list string) :
  (if negb (String.eqb (ampersands segments) "")
   then result +s "?" +s str_tail (ampersands segments)
   else result) = result +s query segments.
Proof.
  destruct segments as [| seg rest]; simpl.
  - now rewrite append_nil_r.
  - now rewrite ampersands_concat.
Qed.

Lemma getChangeCount_same_fields (self : Interest) :
  same_fields (exec getChangeCount self) self.
Proof.
  unfold exec; rewrite getChangeCount_unfold.
  destruct self; unfold same_fields; simpl; repeat split.
Qed.

Lemma getNonce_same_fields (self : Interest) :
  same_fields (exec getNonce self) self.
Proof.
  pose proof (getChangeCount_same_fields self) as H.
  unfold exec at 1; rewrite getNonce_unfold; simpl.
  destruct (_getNonceChangeCount self =? eval getChangeCount self)%Z; simpl; [exact H |].
  destruct (exec getChangeCount self); exact H.
Qed.


Lemma toUri_unfold (self : Interest) :
  toUri self = (toUri_spec self (eval getNonce self), exec getNonce self).
Proof.
  pose proof (getNonce_twice self) as Htwice.
  pose proof (getNonce_same_fields self) as (Hname & _ & _ & _ & Hexclude & _).
  unfold toUri, bind, attr, ret, getExclude, getName, ChangeCounter_get.
  unfold eval, exec in *.
  destruct (getNonce self) as [nonce self'] eqn:E; simpl in *.
  unfold toUri_spec, query_segments, selector_segments, nonce_segment, exclude_segment.
  rewrite <- query_of_ampersands.
  rewrite !ampersands_app.
  change "&ndn.MinSuffixComponents="%string with ("&" +s "ndn.MinSuffixComponents=").
  change "&ndn.MaxSuffixComponents="%string with ("&" +s "ndn.MaxSuffixComponents=").
  change "&ndn.ChildSelector="%string with ("&" +s "ndn.ChildSelector=").
  change "&ndn.Scope="%string with ("&" +s "ndn.Scope=").
  change "&ndn.InterestLifetime="%string with ("&" +s "ndn.InterestLifetime=").
  rewrite !selector_segment.
  set (s1 := ampersands (segment "ndn.MinSuffixComponents=" _)).
  set (s2 := ampersands (segment "ndn.MaxSuffixComponents=" _)).
  set (s3 := ampersands (segment "ndn.ChildSelector=" _)).
  set (s5 := ampersands (segment "ndn.Scope=" _)).
  set (s6 := ampersands (segment "ndn.InterestLifetime=" _)).
  destruct (0 <? Blob_size nonce)%nat; [rewrite Htwice |];
    cbv beta iota; rewrite Hexclude;
    destruct (0 <? Exclude_size (_target (_exclude self)))%nat;
    cbv beta iota; rewrite ?Hexclude, Hname;
    destruct (_mustBeFresh self);
    cbn [ampersands]; rewrite ?append_assoc, ?append_nil_r; cbn [String.append];
    rewrite ?append_assoc; cbn [String.append]; reflexivity.
Qed.


Lemma toUri_leaves_getNonce_state (self : Interest) :
  exec toUri self = exec getNonce self.
Proof. unfold exec at 1; now rewrite toUri_unfold. Qed.

Lemma getNonce_read (self : Interest) :
  eval getNonce self =
  if (_getNonceChangeCount self =? eval getChangeCount self)%Z then _nonce self else Blob_new.
Proof.
  unfold eval at 1; rewrite getNonce_unfold; simpl.
  now destruct (_getNonceChangeCount self =? eval getChangeCount self)%Z.
Qed.

Lemma getNonce_of_empty (self : Interest) :
  _nonce self = Blob_new -> eval getNonce self = Blob_new.
Proof.
  intros H; rewrite getNonce_read, H.
  now destruct (_ =? _)%Z.
Qed.

Lemma toUri_spec_same_fields (a b : Interest) (nonce : Blob) :
  same_fields a b -> toUri_spec a nonce = toUri_spec b nonce.
Proof.
  intros (Hn & Hmin & Hmax & _ & He & Hc & Hf & Hs & Hl).
  unfold toUri_spec, query_segments, selector_segments, exclude_segment.
  now rewrite Hn, Hmin, Hmax, He, Hc, Hf, Hs, Hl.
Qed.

(** C7: [toUri()] is the name's URI followed by the segments that are
    present, in the order MinSuffixComponents, MaxSuffixComponents,
    ChildSelector, MustBeFresh=true, Scope, InterestLifetime, Nonce,
    Exclude, joined with [&] behind a [?]; a packet with only its name set
    gives the name's URI alone ([/a/b] for the name /a/b), and with
    mustBeFresh set as well [/a/b?ndn.MustBeFresh=true]. *)
Theorem toUri_canonical_form :
  (forall self : Interest,
      eval toUri self =
      Name_toUri (_target (_name self)) +s
      query (query_segments self (eval getNonce self))) /\
  (forall name : Name,
      eval toUri (Interest_init (PyName name)) = Name_toUri name /\
      eval toUri (exec (setMustBeFresh true) (Interest_init (PyName name))) =
      Name_toUri name +s "?ndn.MustBeFresh=true") /\
  eval toUri (Interest_init (PyName name_a_b)) = "/a/b"%string /\
  eval toUri (exec (setMustBeFresh true) (Interest_init (PyName name_a_b))) =
  "/a/b?ndn.MustBeFresh=true"%string.
Proof.
  assert (Hform : forall self : Interest,
             eval toUri self = toUri_spec self (eval getNonce self)).
  { intros self; unfold eval at 1; now rewrite toUri_unfold. }
  assert (Hname : forall name : Name,
             eval toUri (Interest_init (PyName name)) = Name_toUri name /\
             eval toUri (exec (setMustBeFresh true) (Interest_init (PyName name))) =
             Name_toUri name +s "?ndn.MustBeFresh=true").
  { intros name; split; rewrite Hform, getNonce_of_empty by reflexivity.
    - unfold toUri_spec; simpl. apply append_nil_r.
    - reflexivity. }
  split; [exact Hform |]. split; [exact Hname |].
  exact (Hname name_a_b).
Qed.

(** C9: [toUri()] leaves the Interest as one [getNonce()] leaves it: the
    name, key locator, exclusion filter and scalar selectors are
    untouched.  The URI is built from the nonce as read at that moment:
    the stored nonce while its snapshot equals the recomputed change
    count, and no nonce otherwise, in which case the stored nonce is
    cleared and its snapshot refreshed to the change count. *)
Theorem toUri_reads_nonce_through_getNonce (self : Interest) :
  let current := eval getChangeCount self in
  let valid := (_getNonceChangeCount self =? current)%Z in
  let self' := exec toUri self in
  same_fields self' self /\
  self' = exec getNonce self /\
  eval toUri self = toUri_spec self (if valid then _nonce self else Blob_new) /\
  (valid = true ->
   _nonce self' = _nonce self /\
   _getNonceChangeCount self' = _getNonceChangeCount self) /\
  (valid = false ->
   eval toUri self =
   Name_toUri (_target (_name self)) +s
   query (selector_segments self ++ exclude_segment self) /\
   _nonce self' = Blob_new /\
   _getNonceChangeCount self' = _changeCount self' /\
   _changeCount self' = current).
Proof.
  simpl.
  rewrite toUri_leaves_getNonce_state.
  destruct (getNonce_settles self) as (_ & Hv & Hn & Hc).
  pose proof (getNonce_read self) as Hread.
  assert (Huri : eval toUri self = toUri_spec self (eval getNonce self)).
  { unfold eval at 1; now rewrite toUri_unfold. }
  split; [apply getNonce_same_fields |]. split; [reflexivity |].
  split; [now rewrite Huri, Hread |].
  split; intros Hvalid; rewrite Hvalid in Hread.
  - apply Z.eqb_eq in Hvalid. rewrite Hn, Hread, Hv, Hc. now split.
  - rewrite Huri, Hn, Hread, Hv, Hc. repeat split.
Qed.

End Uri.

(** ** Sequences of calls *)

Section Sequences.

Context {ext : Collaborators}.

Local Open Scope Z_scope.

Lemma exec_then_ret (A : Type) (m : Method A) (self : Interest) :
  exec (bind m (fun _ => ret tt)) self = exec m self.
Proof. unfold exec, bind, ret; now destruct (m self). Qed.

Lemma call_monotone (c : Call) (self : Interest) :
  _changeCount self <= _changeCount (exec (call c) self).
Proof.
  destruct c as [s | nonce | | | | n | k | e]; simpl call.
  - destruct (call_setter_effect s self) as (H & _); lia.
  - destruct (setNonce_settles nonce self) as (_ & _ & _ & H); lia.
  - rewrite exec_then_ret.
    destruct (getNonce_settles self) as (_ & _ & _ & H); rewrite H.
    apply getChangeCount_ge.
  - rewrite exec_then_ret, <- getChangeCount_count. apply getChangeCount_ge.
  - rewrite exec_then_ret, toUri_leaves_getNonce_state.
    destruct (getNonce_settles self) as (_ & _ & _ & H); rewrite H.
    apply getChangeCount_ge.
  - destruct self; simpl; lia.
  - destruct self; simpl; lia.
  - destruct self; simpl; lia.
Qed.

Lemma run_monotone (calls : list Call) (self : Interest) :
  _changeCount self <= _changeCount (run calls self).
Proof.
  revert self; induction calls as [| c calls IH]; intros self; simpl; [lia |].
  pose proof (call_monotone c self). pose proof (IH (exec (call c) self)). lia.
Qed.

Lemma run_app (l r : list Call) (self : Interest) :
  run (l ++ r) self = run r (run l self).
Proof.
  revert self; induction l as [| c l IH]; intros self; simpl; [reflexivity | apply IH].
Qed.

(** C5: over any sequence of calls and in-place mutations the value of
    [getChangeCount()] never goes down; every scalar or sub-object setter
    adds one to the change count and [setNonce] at least one, so the value
    read after a setter is above the value read before it; and a poll that
    finds a change pending adds one. *)
Theorem changeCount_monotone :
  (forall (calls : list Call) (self : Interest),
      eval getChangeCount self
      <= eval getChangeCount (run calls (exec getChangeCount self))) /\
  (forall (calls : list Call) (self : Interest),
      _changeCount self <= _changeCount (run calls self)) /\
  (forall (s : Setter) (self : Interest),
      _changeCount (exec (call_setter s) self) = _changeCount self + 1 /\
      eval getChangeCount self
      < eval getChangeCount (exec (call_setter s) (exec getChangeCount self))) /\
  (forall (nonce : PyValue) (self : Interest),
      _changeCount self < _changeCount (exec (setNonce nonce) self) /\
      eval getChangeCount self
      < eval getChangeCount (exec (setNonce nonce) (exec getChangeCount self))) /\
  (forall self : Interest,
      anyPending self = true ->
      _changeCount (exec getChangeCount self) = _changeCount self + 1 /\
      _changeCount self < eval getChangeCount self).
Proof.
  split; [| split; [| split; [| split]]].
  - intros calls self.
    rewrite (getChangeCount_count self).
    pose proof (run_monotone calls (exec getChangeCount self)).
    pose proof (getChangeCount_ge (run calls (exec getChangeCount self))). lia.
  - intros calls self; apply run_monotone.
  - intros s self. destruct (call_setter_effect s self) as (H & _).
    split; [exact H |].
    destruct (call_setter_effect s (exec getChangeCount self)) as (H' & _).
    pose proof (getChangeCount_ge (exec (call_setter s) (exec getChangeCount self))).
    rewrite (getChangeCount_count self). lia.
  - intros nonce self.
    destruct (setNonce_settles nonce self) as (_ & _ & _ & H).
    split; [exact H |].
    destruct (setNonce_settles nonce (exec getChangeCount self)) as (_ & _ & _ & H').
    pose proof (getChangeCount_ge (exec (setNonce nonce) (exec getChangeCount self))).
    rewrite (getChangeCount_count self). lia.
  - intros self Hp.
    rewrite <- getChangeCount_count. unfold eval.
    rewrite getChangeCount_unfold, Hp; simpl. lia.
Qed.


(** *** Setter calls in different orders *)

Lemma same_fields_refl (a : Interest) : same_fields a a.
Proof. unfold same_fields; repeat split. Qed.

Lemma same_fields_sym (a b : Interest) : same_fields a b -> same_fields b a.
Proof. unfold same_fields; intuition congruence. Qed.

Lemma same_fields_trans (a b c : Interest) :
  same_fields a b -> same_fields b c -> same_fields a c.
Proof. unfold same_fields; intuition congruence. Qed.

Lemma setters_commute (s1 s2 : Setter) (self : Interest) :
  setter_field s1 <> setter_field s2 ->
  exec (call_setter s2) (exec (call_setter s1) self) =
  exec (call_setter s1) (exec (call_setter s2) self).
Proof.
  intros Hdistinct.
  destruct s1, s2; simpl in Hdistinct; try (now contradiction Hdistinct);
    destruct self; reflexivity.
Qed.

Lemma run_setters_permuted (l l' : list Setter) :
  Permutation l l' ->
  NoDup (map setter_field l) ->
  forall self : Interest, run (map CallSetter l) self = run (map CallSetter l') self.
Proof.
  induction 1 as [| s l l' Hperm IH | s1 s2 l | l l' l'' Hperm1 IH1 Hperm2 IH2];
    intros Hnodup self; simpl.
  - reflexivity.
  - apply IH. now inversion Hnodup.
  - f_equal. apply setters_commute.
    inversion Hnodup as [| f fs Hnotin _]; subst.
    intros Heq; apply Hnotin; left; now symmetry.
  - rewrite IH1 by assumption. apply IH2.
    apply (Permutation_NoDup (Permutation_map setter_field Hperm1) Hnodup).
Qed.

Lemma call_setter_same_fields (s : Setter) (a b : Interest) :
  same_fields a b -> same_fields (exec (call_setter s) a) (exec (call_setter s) b).
Proof.
  destruct a as [[na sa] mna mxa [ka ska] [ea sea] cha mfa noa sca lia gna cca].
  destruct b as [[nb sb] mnb mxb [kb skb] [eb seb] chb mfb nob scb lib gnb ccb].
  unfold same_fields; destruct s; simpl; intuition congruence.
Qed.

Lemma run_setters_same_fields (l : list Setter) (a b : Interest) :
  same_fields a b -> same_fields (run (map CallSetter l) a) (run (map CallSetter l) b).
Proof.
  revert a b; induction l as [| s l IH]; intros a b H; simpl; [exact H |].
  apply IH, call_setter_same_fields, H.
Qed.

Lemma setNonce_same_fields (nonce : PyValue) (self : Interest) :
  same_fields (exec (setNonce nonce) self) self.
Proof.
  rewrite setNonce_unfold; simpl.
  set (s0 := with_changeCount _ _).
  pose proof (getChangeCount_same_fields s0) as H.
  apply same_fields_trans with s0.
  - destruct (exec getChangeCount s0); exact H.
  - subst s0; destruct self; unfold same_fields; simpl; repeat split.
Qed.

Lemma run_setters_counts (l : list Setter) (self : Interest) :
  _changeCount (run (map CallSetter l) self) = _changeCount self + Z.of_nat (length l) /\
  _getNonceChangeCount (run (map CallSetter l) self) = _getNonceChangeCount self.
Proof.
  revert self; induction l as [| s l IH]; intros self.
  - simpl; split; [lia | reflexivity].
  - change (run (map CallSetter (s :: l)) self)
      with (run (map CallSetter l) (exec (call_setter s) self)).
    destruct (IH (exec (call_setter s) self)) as [Hc Hg].
    destruct (call_setter_effect s self) as (Hc' & _ & Hg').
    rewrite Hc, Hg, Hc', Hg'. simpl length. split; [lia | reflexivity].
Qed.

Lemma toUri_by_fields_and_nonce (a b : Interest) :
  same_fields a b ->
  eval getNonce a = eval getNonce b ->
  eval toUri a = eval toUri b.
Proof.
  intros Hf Hn.
  assert (Hform : forall self : Interest,
             eval toUri self = toUri_spec self (eval getNonce self)).
  { intros self; unfold eval at 1; now rewrite toUri_unfold. }
  rewrite !Hform, Hn. now apply toUri_spec_same_fields.
Qed.

(** A nonce set before another setter call is stale when it is read. *)
Lemma nonce_stale_after_setters (before after : list Setter) (nonce : PyValue)
      (self : Interest) :
  after <> [] ->
  let final := run (map CallSetter before ++ CallSetNonce nonce :: map CallSetter after) self in
  eval getNonce final = Blob_new /\
  same_fields final (run (map CallSetter (before ++ after)) self).
Proof.
  intros Hafter; simpl.
  rewrite run_app, map_app, run_app.
  set (s0 := run (map CallSetter before) self).
  change (run (CallSetNonce nonce :: map CallSetter after) s0)
    with (run (map CallSetter after) (exec (setNonce nonce) s0)).
  split.
  - apply getNonce_stale.
    destruct (run_setters_counts after (exec (setNonce nonce) s0)) as [Hc Hg].
    destruct (setNonce_settles nonce s0) as (_ & Hv & _ & _).
    rewrite Hc, Hg, Hv.
    destruct after; [now contradiction Hafter | simpl length; lia].
  - apply run_setters_same_fields, setNonce_same_fields.
Qed.

(** C4, as the code has it: any two orders of the same assignments to
    distinct fields give the same [toUri()] when [setNonce] is not among
    them, when it is the last call of both, or when it is the last call of
    neither (a nonce set before another setter is read as empty). *)
Theorem toUri_order_independent :
  (forall (l l' : list Setter) (self : Interest),
      Permutation l l' ->
      NoDup (map setter_field l) ->
      eval toUri (run (map CallSetter l) self) =
      eval toUri (run (map CallSetter l') self)) /\
  (forall (l l' : list Setter) (nonce : PyValue) (self : Interest),
      Permutation l l' ->
      NoDup (map setter_field l) ->
      eval toUri (run (map CallSetter l ++ [CallSetNonce nonce]) self) =
      eval toUri (run (map CallSetter l' ++ [CallSetNonce nonce]) self)) /\
  (forall (before after before' after' : list Setter) (nonce : PyValue) (self : Interest),
      after <> [] ->
      after' <> [] ->
      Permutation (before ++ after) (before' ++ after') ->
      NoDup (map setter_field (before ++ after)) ->
      eval toUri
        (run (map CallSetter before ++ CallSetNonce nonce :: map CallSetter after) self) =
      eval toUri
        (run (map CallSetter before' ++ CallSetNonce nonce :: map CallSetter after') self)).
Proof.
  split; [| split].
  - intros l l' self Hperm Hnodup.
    now rewrite (run_setters_permuted Hperm Hnodup).
  - intros l l' nonce self Hperm Hnodup.
    now rewrite !run_app, (run_setters_permuted Hperm Hnodup).
  - intros before after before' after' nonce self Hafter Hafter' Hperm Hnodup.
    destruct (nonce_stale_after_setters before nonce self Hafter) as [Hn Hf].
    destruct (nonce_stale_after_setters before' nonce self Hafter') as [Hn' Hf'].
    apply toUri_by_fields_and_nonce.
    + apply same_fields_trans with (run (map CallSetter (before ++ after)) self);
        [exact Hf |].
      rewrite (run_setters_permuted Hperm Hnodup). now apply same_fields_sym.
    + now rewrite Hn, Hn'.
Qed.

End Sequences.

(** ** The sub-object setters *)

Section SubObjectSetters.

Context {ext : Collaborators}.

Local Open Scope Z_scope.

(** A class object never equals an instance. *)
Lemma class_eq_instance (cls : PyType) :
  (forall k : KeyLocator, class_eq cls (PyKeyLocator k) = false) /\
  (forall e : Exclude, class_eq cls (PyExclude e) = false).
Proof. split; reflexivity. Qed.

(** C3, on the code as written: [setKeyLocator] and [setExclude] add one
    to the change count and store the default-constructed sub-object for
    every argument, a [KeyLocator] or an [Exclude] included, because the
    test compares a class with an instance; the key locator of type 1 and
    the exclusion filter of one component are lost so. *)
Theorem sub_object_setters_store_default :
  (forall (value : PyValue) (self : Interest),
      _target (_keyLocator (exec (setKeyLocator value) self)) = KeyLocator_new /\
      _changeCount (exec (setKeyLocator value) self) = _changeCount self + 1) /\
  (forall (value : PyValue) (self : Interest),
      _target (_exclude (exec (setExclude value) self)) = Exclude_new /\
      _changeCount (exec (setExclude value) self) = _changeCount self + 1) /\
  (forall self : Interest,
      _target (_keyLocator (exec (setKeyLocator (PyKeyLocator keyName_locator)) self))
      <> keyName_locator) /\
  (forall self : Interest,
      _target (_exclude (exec (setExclude (PyExclude exclude_c)) self)) <> exclude_c).
Proof.
  assert (Hk : forall (value : PyValue) (self : Interest),
             _target (_keyLocator (exec (setKeyLocator value) self)) = KeyLocator_new /\
             _changeCount (exec (setKeyLocator value) self) = _changeCount self + 1).
  { intros value self; destruct self, value; split; reflexivity. }
  assert (He : forall (value : PyValue) (self : Interest),
             _target (_exclude (exec (setExclude value) self)) = Exclude_new /\
             _changeCount (exec (setExclude value) self) = _changeCount self + 1).
  { intros value self; destruct self, value; split; reflexivity. }
  split; [exact Hk |]. split; [exact He |]. split; intros self.
  - destruct (Hk (PyKeyLocator keyName_locator) self) as [H _]; rewrite H; discriminate.
  - destruct (He (PyExclude exclude_c) self) as [H _]; rewrite H; discriminate.
Qed.

End SubObjectSetters.

(** ** The padding of aes_algorithm.py *)

Section AesPadding.

Import AesAlgorithm.

Lemma padLength_bounds (plainData : list byte) :
  1 <= padLength plainData <= 16 /\
  (length plainData + padLength plainData) mod 16 = 0.
Proof.
  unfold padLength.
  pose proof (Nat.mod_upper_bound (length plainData) 16 ltac:(lia)) as Hlt.
  split; [lia |].
  pose proof (Nat.div_mod_eq (length plainData) 16) as Hdiv.
  replace (length plainData + (16 - length plainData mod 16))
    with ((length plainData / 16 + 1) * 16) by lia.
  apply Nat.Div0.mod_mul.
Qed.

Lemma last_item_app_repeat (A : Type) (l : list A) (x : A) (n : nat) :
  last_item (l ++ repeat x (S n)) = Ok x.
Proof.
  induction l as [| y l IH].
  - induction n as [| n IHn]; [reflexivity | exact IHn].
  - simpl app. simpl in IH.
    change (last_item (y :: l ++ x :: repeat x n))
      with (match l ++ x :: repeat x n with
            | [] => Ok y
            | _ :: _ => last_item (l ++ x :: repeat x n)
            end).
    destruct (l ++ x :: repeat x n) eqn:E; [now destruct l | exact IH].
Qed.

Lemma slice_until_neg_app (A : Type) (l tail : list A) :
  tail <> [] -> slice_until_neg (l ++ tail) (length tail) = l.
Proof.
  intros Hne. unfold slice_until_neg.
  destruct (length tail) eqn:E; [now destruct tail |].
  rewrite <- E, length_app, Nat.add_sub.
  rewrite firstn_app, Nat.sub_diag, firstn_all; simpl.
  apply app_nil_r.
Qed.

Lemma removePad_after_pad (plainData : list byte) :
  exists padBytes : list byte,
    pad plainData = Ok padBytes /\
    padBytes = repeat (hd "000"%byte padBytes) (padLength plainData) /\
    Byte.to_nat (hd "000"%byte padBytes) = padLength plainData /\
    removePad (plainData ++ padBytes) = Ok plainData.
Proof.
  destruct (padLength_bounds plainData) as [Hrange _].
  unfold pad, repeated_byte.
  destruct (Byte.of_nat (padLength plainData)) as [b |] eqn:Hb.
  - apply Byte.to_of_nat in Hb as Hto.
    exists (repeat b (padLength plainData)).
    destruct (padLength plainData) as [| m] eqn:Hn; [lia |].
    split; [reflexivity |]. split; [reflexivity |]. split; [exact Hto |].
    unfold removePad.
    rewrite last_item_app_repeat; unfold result_bind.
    rewrite Hto.
    pose proof (@slice_until_neg_app _ plainData (repeat b (S m))) as Hslice.
    rewrite repeat_length in Hslice.
    now rewrite Hslice.
  - apply Byte.of_nat_None_iff in Hb. lia.
Qed.

(** The pad has length [16 - size mod 16], between 1 and 16, every byte
    of it is that length, the padded length is a positive multiple of 16,
    and dropping as many trailing bytes as the last byte says gives the
    plain data back. *)
Lemma pad_then_removePad (plainData : list byte) :
  let n := padLength plainData in
  n = 16 - length plainData mod 16 /\
  1 <= n <= 16 /\
  exists padBytes : list byte,
    pad plainData = Ok padBytes /\
    length padBytes = n /\
    Forall (fun b => Byte.to_nat b = n) padBytes /\
    length (plainData ++ padBytes) mod 16 = 0 /\
    0 < length (plainData ++ padBytes) /\
    removePad (plainData ++ padBytes) = Ok plainData.
Proof.
  simpl.
  destruct (padLength_bounds plainData) as [Hrange Hmod].
  destruct (removePad_after_pad plainData) as (padBytes & Hpad & Hrep & Hbyte & Hun).
  assert (Hlen : length padBytes = padLength plainData)
    by (rewrite Hrep; apply repeat_length).
  split; [reflexivity |]. split; [exact Hrange |].
  exists padBytes.
  split; [exact Hpad |]. split; [exact Hlen |].
  split.
  - apply Forall_forall; intros x Hx.
    rewrite Hrep in Hx. now rewrite (repeat_spec _ _ _ Hx).
  - rewrite length_app, Hlen.
    split; [exact Hmod |]. split; [lia | exact Hun].
Qed.

(** *** decrypt after encrypt, for a cipher that inverts itself *)

Variable Cipher : Type.
Variable AES_new : list byte -> AesMode -> option (list byte) -> result Cipher.
Variable Cipher_encrypt : Cipher -> list byte -> result (list byte * Cipher).
Variable Cipher_decrypt : Cipher -> list byte -> result (list byte * Cipher).

(** C10: for every plain data, key, params and cipher library,
    [encrypt] gives the cipher the plain data and then a pad of
    [16 - size mod 16] bytes, between 1 and 16, each equal to that
    length, so that the padded length is a positive multiple of 16, and
    returns the two outputs joined; and [decrypt], when the cipher gives
    back the plain data followed by that pad, drops as many trailing
    bytes as the last byte says and returns the plain data exactly. *)
Theorem encrypt_pads_and_decrypt_unpads
        (keyBits plainData : list byte) (params : EncryptParams) :
  let n := padLength plainData in
  n = 16 - length plainData mod 16 /\
  1 <= n <= 16 /\
  exists padBytes : list byte,
    pad plainData = Ok padBytes /\
    length padBytes = n /\
    Forall (fun b => Byte.to_nat b = n) padBytes /\
    length (plainData ++ padBytes) mod 16 = 0 /\
    0 < length (plainData ++ padBytes) /\
    encrypt AES_new Cipher_encrypt keyBits plainData params =
    (try cipher <- newCipher AES_new keyBits params ;
     try (head, cipher) <- Cipher_encrypt cipher plainData ;
     try (tail, _) <- Cipher_encrypt cipher padBytes ;
     Ok (head ++ tail))%result /\
    (forall (encryptedData : list byte) (cipher after : Cipher),
        newCipher AES_new keyBits params = Ok cipher ->
        Cipher_decrypt cipher encryptedData = Ok (plainData ++ padBytes, after) ->
        decrypt AES_new Cipher_decrypt keyBits encryptedData params = Ok plainData).
Proof.
  destruct (pad_then_removePad plainData)
    as (Hn & Hrange & padBytes & Hpad & Hlen & Hbytes & Hmod & Hpos & Hun).
  simpl in *.
  split; [reflexivity |]. split; [exact Hrange |].
  exists padBytes.
  split; [exact Hpad |]. split; [exact Hlen |]. split; [exact Hbytes |].
  split; [exact Hmod |]. split; [exact Hpos |].
  split.
  - unfold encrypt. rewrite Hpad. reflexivity.
  - intros encryptedData cipher after Hnew Hdec.
    unfold decrypt. rewrite Hnew; cbn [result_bind]. rewrite Hdec; cbn [result_bind].
    exact Hun.
Qed.

(** A cipher object built from a key and a mode decrypts, in one call,
    what an object built alike encrypted in two. *)
Hypothesis decrypt_inverts_encrypt :
  forall (key : list byte) (mode : AesMode) (iv : option (list byte))
         (c c1 c2 : Cipher) (p1 p2 e1 e2 : list byte),
    AES_new key mode iv = Ok c ->
    Cipher_encrypt c p1 = Ok (e1, c1) ->
    Cipher_encrypt c1 p2 = Ok (e2, c2) ->
    exists c3 : Cipher, Cipher_decrypt c (e1 ++ e2) = Ok (p1 ++ p2, c3).

(** X11: with such a cipher, whatever [encrypt] returns for a key, a
    plain data and params, [decrypt] with the same key and params turns
    back into that plain data. *)
Theorem decrypt_encrypt (keyBits plainData encrypted : list byte) (params : EncryptParams) :
  encrypt AES_new Cipher_encrypt keyBits plainData params = Ok encrypted ->
  decrypt AES_new Cipher_decrypt keyBits encrypted params = Ok plainData.
Proof.
  destruct (removePad_after_pad plainData) as (padBytes & Hpad & _ & _ & Hun).
  unfold encrypt, decrypt; rewrite Hpad; unfold result_bind.
  destruct (newCipher AES_new keyBits params) as [c |] eqn:Hnew; [| discriminate].
  destruct (Cipher_encrypt c plainData) as [[e1 c1] |] eqn:H1; [| discriminate].
  destruct (Cipher_encrypt c1 padBytes) as [[e2 c2] |] eqn:H2; [| discriminate].
  intros Henc; injection Henc as <-.
  assert (Hc : exists key mode iv, AES_new key mode iv = Ok c).
  { unfold newCipher in Hnew. destruct (getAlgorithmType params); try discriminate; eauto. }
  destruct Hc as (key & mode & iv & Hc).
  destruct (decrypt_inverts_encrypt Hc H1 H2) as [c3 Hdec].
  now rewrite Hdec.
Qed.

End AesPadding.

(** ** The methods on concrete packets *)

Section Concrete.

Local Open Scope Z_scope.

Local Existing Instance demo_collaborators.

Example toUri_every_segment :
  eval toUri
    (run [CallSetter (SetScope (Some 2));
          CallSetter (SetChildSelector (Some 1));
          CallSetter (SetMaxSuffixComponents (Some 3));
          CallSetter (SetMustBeFresh true);
          CallSetter (SetMinSuffixComponents (Some 0));
          MutateExclude exclude_c;
          CallSetNonce nonce_A] demo_interest) =
  "/a/b?ndn.MinSuffixComponents=0&ndn.MaxSuffixComponents=3&ndn.ChildSelector=1&ndn.MustBeFresh=true&ndn.Scope=2&ndn.Nonce=A&ndn.Exclude=c"%string.
Proof. vm_compute. reflexivity. Qed.

Example setExclude_loses_the_filter :
  eval toUri (exec (setExclude (PyExclude exclude_c)) demo_interest) = "/a/b"%string.
Proof. vm_compute. reflexivity. Qed.

(** C4, as stated, fails: the same two calls on the same packet give two
    URIs, with the nonce when [setNonce] comes last and without it when
    [setMustBeFresh] follows. *)
Lemma nonce_before_setter_changes_uri :
  Permutation
    [CallSetNonce nonce_A; CallSetter (SetMustBeFresh true)]
    [CallSetter (SetMustBeFresh true); CallSetNonce nonce_A] /\
  NoDup (map call_field [CallSetNonce nonce_A; CallSetter (SetMustBeFresh true)]) /\
  eval toUri (run [CallSetNonce nonce_A; CallSetter (SetMustBeFresh true)] demo_interest) =
  "/a/b?ndn.MustBeFresh=true"%string /\
  eval toUri (run [CallSetter (SetMustBeFresh true); CallSetNonce nonce_A] demo_interest) =
  "/a/b?ndn.MustBeFresh=true&ndn.Nonce=A"%string /\
  eval toUri (run [CallSetNonce nonce_A; CallSetter (SetMustBeFresh true)] demo_interest) <>
  eval toUri (run [CallSetter (SetMustBeFresh true); CallSetNonce nonce_A] demo_interest).
Proof.
  split; [apply perm_swap |].
  split; [repeat constructor; simpl; intuition discriminate |].
  split; [vm_compute; reflexivity |].
  split; [vm_compute; reflexivity |].
  vm_compute; discriminate.
Qed.

Lemma toUri_order_independent_witness :
  eval toUri
    (run (map CallSetter [SetMustBeFresh true; SetScope (Some 2)] ++ [CallSetNonce nonce_A])
       demo_interest) =
  eval toUri
    (run (map CallSetter [SetScope (Some 2); SetMustBeFresh true] ++ [CallSetNonce nonce_A])
       demo_interest) /\
  eval toUri
    (run (map CallSetter [SetMustBeFresh true] ++
          CallSetNonce nonce_A :: map CallSetter [SetScope (Some 2)]) demo_interest) =
  eval toUri
    (run (map CallSetter [] ++
          CallSetNonce nonce_A :: map CallSetter [SetScope (Some 2); SetMustBeFresh true])
       demo_interest).
Proof.
  split.
  - apply (proj1 (proj2 toUri_order_independent)).
    + apply perm_swap.
    + repeat constructor; simpl; intuition discriminate.
  - apply (proj2 (proj2 toUri_order_independent)
             [SetMustBeFresh true] [SetScope (Some 2)] []
             [SetScope (Some 2); SetMustBeFresh true]).
    + discriminate.
    + discriminate.
    + apply perm_swap.
    + repeat constructor; simpl; intuition discriminate.
Defined.



Example two_pending_changes_count_once :
  anyPending (run [MutateName name_a_b_c; MutateExclude exclude_c] demo_interest) = true /\
  eval getChangeCount (run [MutateName name_a_b_c; MutateExclude exclude_c] demo_interest)
  = 1 /\
  anyPending
    (run [MutateName name_a_b_c; MutateExclude exclude_c; CallGetChangeCount] demo_interest)
  = false /\
  eval getChangeCount
    (run [MutateName name_a_b_c; MutateExclude exclude_c; CallGetChangeCount] demo_interest)
  = 1.
Proof. repeat split. Qed.

Lemma nonce_valid_until_next_change_witness :
  eval getNonce (exec (setNonce nonce_A) demo_interest) = ["A"%byte] /\
  eval getNonce (exec (setMustBeFresh true) (exec (setNonce nonce_A) demo_interest)) =
  Blob_new /\
  _getNonceChangeCount (exec getNonce (exec (setNonce nonce_A) demo_interest)) = 1 /\
  _getNonceChangeCount
    (exec getNonce (exec (setMustBeFresh true) (exec (setNonce nonce_A) demo_interest))) = 2.
Proof.
  destruct nonce_valid_until_next_change as (Hset & _ & Hclear & Hread).
  split; [exact (Hset demo_interest nonce_A) |].
  split; [exact (proj1 (Hclear demo_interest nonce_A (SetMustBeFresh true))) |].
  split.
  - destruct (Hread (exec (setNonce nonce_A) demo_interest)) as (Hvalid & _ & _).
    destruct (Hvalid eq_refl) as (_ & _ & Hsnap).
    rewrite Hsnap. reflexivity.
  - destruct (Hread (exec (setMustBeFresh true) (exec (setNonce nonce_A) demo_interest)))
      as (_ & Hstale & _).
    assert (Hne : _getNonceChangeCount
                    (exec (setMustBeFresh true) (exec (setNonce nonce_A) demo_interest))
                  <> eval getChangeCount
                       (exec (setMustBeFresh true) (exec (setNonce nonce_A) demo_interest)))
      by (vm_compute; discriminate).
    destruct (Hstale Hne) as (_ & _ & Hsnap & _).
    rewrite Hsnap. reflexivity.
Defined.

Lemma changeCount_monotone_witness :
  anyPending (exec (mutateName name_a_b_c) demo_interest) = true /\
  _changeCount (exec getChangeCount (exec (mutateName name_a_b_c) demo_interest)) = 1.
Proof.
  split; [reflexivity |].
  destruct changeCount_monotone as (_ & _ & _ & _ & Hpoll).
  exact (proj1 (Hpoll (exec (mutateName name_a_b_c) demo_interest) eq_refl)).
Defined.

Lemma toUri_reads_nonce_witness :
  _nonce (exec toUri (exec (setNonce nonce_A) demo_interest)) = ["A"%byte] /\
  _nonce (exec toUri (exec (setScope (Some 2)) (exec (setNonce nonce_A) demo_interest))) =
  Blob_new /\
  eval toUri (exec (setScope (Some 2)) (exec (setNonce nonce_A) demo_interest)) =
  "/a/b?ndn.Scope=2"%string.
Proof.
  split; [| split].
  - destruct (toUri_reads_nonce_through_getNonce (exec (setNonce nonce_A) demo_interest))
      as (_ & _ & _ & Hvalid & _).
    destruct (Hvalid eq_refl) as [Hn _].
    rewrite Hn. reflexivity.
  - destruct (toUri_reads_nonce_through_getNonce
                (exec (setScope (Some 2)) (exec (setNonce nonce_A) demo_interest)))
      as (_ & _ & _ & _ & Hstale).
    exact (proj1 (proj2 (Hstale eq_refl))).
  - destruct (toUri_reads_nonce_through_getNonce
                (exec (setScope (Some 2)) (exec (setNonce nonce_A) demo_interest)))
      as (_ & _ & _ & _ & Hstale).
    rewrite (proj1 (Hstale eq_refl)). reflexivity.
Defined.

(** The padding on a plain text of five bytes and on one of a whole
    block, and [decrypt] after [encrypt] with the cipher that leaves the
    bytes alone. *)
Example pad_of_five_bytes :
  AesAlgorithm.pad ["h"; "e"; "l"; "l"; "o"]%byte = Ok (repeat "011"%byte 11) /\
  AesAlgorithm.removePad (["h"; "e"; "l"; "l"; "o"]%byte ++ repeat "011"%byte 11) =
  Ok ["h"; "e"; "l"; "l"; "o"]%byte /\
  AesAlgorithm.pad (repeat "a"%byte 16) = Ok (repeat "016"%byte 16).
Proof. repeat split. Qed.

Example decrypt_encrypt_identity_cipher :
  let AES_new := fun (_ : list byte) (_ : AesAlgorithm.AesMode) (_ : option (list byte)) =>
                   Ok tt in
  let crypt := fun (c : unit) (data : list byte) => Ok (data, c) in
  let params := AesAlgorithm.mkEncryptParams AesAlgorithm.AesEcb [] in
  AesAlgorithm.encrypt AES_new crypt [] ["h"; "i"]%byte params
  = Ok (["h"; "i"]%byte ++ repeat "014"%byte 14) /\
  AesAlgorithm.decrypt AES_new crypt [] (["h"; "i"]%byte ++ repeat "014"%byte 14) params
  = Ok ["h"; "i"]%byte.
Proof.
  simpl. split; [reflexivity |].
  apply (@decrypt_encrypt unit (fun _ _ _ => Ok tt) (fun c data => Ok (data, c))
           (fun c data => Ok (data, c))).
  - intros key mode iv [] [] [] p1 p2 e1 e2 _ H1 H2.
    injection H1 as <-. injection H2 as <-. now exists tt.
  - reflexivity.
Defined.

End Concrete.

(** ** More of interest.py: reads, reachable packets and overwrites *)

Section Observations.

Context {ext : Collaborators}.

Local Open Scope Z_scope.

Local Notation "a +s b" := (String.append a b) (at level 60, right associativity).

Lemma settled_snapshots (self : Interest) :
  anyPending self = false ->
  _snapshot (_name self) = Name_getChangeCount (_target (_name self)) /\
  _snapshot (_keyLocator self) = KeyLocator_getChangeCount (_target (_keyLocator self)) /\
  _snapshot (_exclude self) = Exclude_getChangeCount (_target (_exclude self)).
Proof.
  destruct self as [[n sn] mn mx [k sk] [e se] ch mf no sc li gn cc].
  unfold anyPending, pending, checkChanged, getChangeCount_of,
    Name_counted, KeyLocator_counted, Exclude_counted; simpl.
  intros H.
  apply orb_false_elim in H as [H He]; apply orb_false_elim in H as [Hn Hk].
  apply negb_false_iff, Z.eqb_eq in Hn, Hk, He. auto.
Qed.

Lemma toUri_form (self : Interest) :
  eval toUri self = toUri_spec self (eval getNonce self).
Proof. unfold eval at 1; now rewrite toUri_unfold. Qed.

Lemma read_call_stable (c : Call) (self : Interest) :
  is_read c = true ->
  eval getChangeCount (exec (call c) self) = eval getChangeCount self /\
  eval getNonce (exec (call c) self) = eval getNonce self /\
  same_fields (exec (call c) self) self.
Proof.
  assert (Hnonce : eval getChangeCount (exec getNonce self) = eval getChangeCount self /\
                   eval getNonce (exec getNonce self) = eval getNonce self /\
                   same_fields (exec getNonce self) self).
  { destruct (getNonce_settles self) as (Hp & _ & _ & Hc).
    split; [| split].
    - unfold eval at 1; now rewrite (getChangeCount_settled _ Hp).
    - unfold eval at 1; now rewrite getNonce_twice.
    - apply getNonce_same_fields. }
  destruct c; simpl; try discriminate; intros _; rewrite exec_then_ret.
  - exact Hnonce.
  - split; [| split].
    + unfold eval at 1; now rewrite getChangeCount_twice.
    + destruct (getChangeCount_keeps_nonce self) as [Hn Hg].
      rewrite !getNonce_read, Hn, Hg.
      unfold eval at 1; now rewrite getChangeCount_twice.
    + apply getChangeCount_same_fields.
  - now rewrite toUri_leaves_getNonce_state.
Qed.

(** X1: a run of calls that only read ([getNonce], [getChangeCount],
    [toUri], in any number and order) changes nothing a later read
    returns: the change count, the nonce and the URI come back as they
    would have before the run, and no assigned field has moved. *)
Theorem reads_do_not_disturb (calls : list Call) (self : Interest) :
  forallb is_read calls = true ->
  eval getChangeCount (run calls self) = eval getChangeCount self /\
  eval getNonce (run calls self) = eval getNonce self /\
  eval toUri (run calls self) = eval toUri self /\
  same_fields (run calls self) self.
Proof.
  revert self; induction calls as [| c calls IH]; intros self Hreads; simpl in *.
  - repeat split; reflexivity.
  - apply andb_prop in Hreads as [Hc Hrest].
    destruct (read_call_stable c self Hc) as (Hcount & Hnonce & Hfields).
    destruct (IH (exec (call c) self) Hrest) as (Hcount' & Hnonce' & _ & Hfields').
    assert (Hall : same_fields (run calls (exec (call c) self)) self)
      by (eapply same_fields_trans; eassumption).
    split; [congruence |]. split; [congruence |]. split; [| exact Hall].
    apply toUri_by_fields_and_nonce; [exact Hall | congruence].
Qed.

Lemma pending_change_clears_nonce (self : Interest) :
  _getNonceChangeCount self <= _changeCount self ->
  anyPending self = true ->
  eval getNonce self = Blob_new.
Proof.
  intros Hinv Hpending. rewrite getNonce_read.
  replace (eval getChangeCount self) with (_changeCount self + 1)
    by (unfold eval; rewrite getChangeCount_unfold, Hpending; reflexivity).
  destruct (Z.eqb_spec (_getNonceChangeCount self) (_changeCount self + 1));
    [lia | reflexivity].
Qed.

(** X2: once [setNonce] has returned, changing the name, the key locator
    or the exclusion filter in place (through the object a getter
    returned, so that its own counter moves) makes the next [getNonce()]
    return the empty buffer, and [toUri()] carry no nonce. *)
Theorem in_place_mutation_clears_nonce (nonce : PyValue) (self : Interest) :
  let set := exec (setNonce nonce) self in
  (forall name : Name,
      Name_getChangeCount name <> Name_getChangeCount (_target (_name set)) ->
      eval getNonce (exec (mutateName name) set) = Blob_new /\
      eval toUri (exec (mutateName name) set) =
      Name_toUri name +s query (selector_segments set ++ exclude_segment set)) /\
  (forall keyLocator : KeyLocator,
      KeyLocator_getChangeCount keyLocator
      <> KeyLocator_getChangeCount (_target (_keyLocator set)) ->
      eval getNonce (exec (mutateKeyLocator keyLocator) set) = Blob_new /\
      eval toUri (exec (mutateKeyLocator keyLocator) set) =
      Name_toUri (_target (_name set)) +s
      query (selector_segments set ++ exclude_segment set)) /\
  (forall exclude : Exclude,
      Exclude_getChangeCount exclude <> Exclude_getChangeCount (_target (_exclude set)) ->
      eval getNonce (exec (mutateExclude exclude) set) = Blob_new /\
      eval toUri (exec (mutateExclude exclude) set) =
      Name_toUri (_target (_name set)) +s
      query (selector_segments set ++ exclude_segment (exec (mutateExclude exclude) set))).
Proof.
  simpl.
  destruct (setNonce_settles nonce self) as (Hp & Hv & _ & _).
  destruct (settled_snapshots _ Hp) as (Hn & Hk & He).
  set (s := exec (setNonce nonce) self) in *.
  assert (Hname : forall name : Name,
             Name_getChangeCount name <> Name_getChangeCount (_target (_name s)) ->
             eval getNonce (exec (mutateName name) s) = Blob_new).
  { intros name Hne. apply pending_change_clears_nonce.
    - destruct s; simpl in *; lia.
    - destruct s as [[n sn] mn mx k e ch mf no sc li gn cc].
      unfold anyPending, pending, checkChanged, getChangeCount_of, Name_counted; simpl in *.
      destruct (Z.eqb_spec sn (Name_getChangeCount name)); [congruence | reflexivity]. }
  assert (Hexclude : forall exclude : Exclude,
             Exclude_getChangeCount exclude
             <> Exclude_getChangeCount (_target (_exclude s)) ->
             eval getNonce (exec (mutateExclude exclude) s) = Blob_new).
  { intros exclude Hne. apply pending_change_clears_nonce.
    - destruct s; simpl in *; lia.
    - destruct s as [n mn mx k [e se] ch mf no sc li gn cc].
      unfold anyPending, pending, checkChanged, getChangeCount_of, Exclude_counted;
        simpl in *.
      destruct (Z.eqb_spec se (Exclude_getChangeCount exclude));
        [congruence | apply orb_true_r]. }
  split; [| split].
  - intros name Hne. split; [now apply Hname |].
    rewrite toUri_form, Hname by assumption. now destruct s.
  - intros keyLocator Hne.
    assert (Hread : eval getNonce (exec (mutateKeyLocator keyLocator) s) = Blob_new).
    { apply pending_change_clears_nonce.
      - destruct s; simpl in *; lia.
      - destruct s as [n mn mx [k sk] e ch mf no sc li gn cc].
        unfold anyPending, pending, checkChanged, getChangeCount_of, KeyLocator_counted;
          simpl in *.
        destruct (Z.eqb_spec sk (KeyLocator_getChangeCount keyLocator));
          [congruence |]. simpl. rewrite orb_true_r. reflexivity. }
    split; [exact Hread |].
    rewrite toUri_form, Hread. now destruct s.
  - intros exclude Hne. split; [now apply Hexclude |].
    rewrite toUri_form, Hexclude by assumption. now destruct s.
Qed.

Lemma call_keeps_nonce_snapshot_behind (c : Call) (self : Interest) :
  _getNonceChangeCount self <= _changeCount self ->
  _getNonceChangeCount (exec (call c) self) <= _changeCount (exec (call c) self).
Proof.
  intros Hinv.
  destruct c as [s | nonce | | | | n | k | e]; simpl call.
  - destruct (call_setter_effect s self) as (Hc & _ & Hg); lia.
  - destruct (setNonce_settles nonce self) as (_ & Hv & _ & _); lia.
  - rewrite exec_then_ret.
    destruct (getNonce_settles self) as (_ & Hv & _ & _); lia.
  - rewrite exec_then_ret.
    destruct (getChangeCount_keeps_nonce self) as [_ Hg].
    pose proof (getChangeCount_ge self) as Hge.
    rewrite getChangeCount_count in Hge. lia.
  - rewrite exec_then_ret, toUri_leaves_getNonce_state.
    destruct (getNonce_settles self) as (_ & Hv & _ & _); lia.
  - destruct self; simpl in *; lia.
  - destruct self; simpl in *; lia.
  - destruct self; simpl in *; lia.
Qed.

(** X3: however a packet was used since [Interest(name)] (any calls, any
    in-place changes of its sub-objects), its nonce snapshot is never
    ahead of its change count; so the read after any scalar or
    sub-object setter returns the empty nonce, and so does a read that
    finds a sub-object change pending. *)
Theorem nonce_snapshot_never_ahead (name : PyValue) (calls : list Call) :
  let self := run calls (Interest_init name) in
  0 <= _getNonceChangeCount self <= _changeCount self /\
  (forall s : Setter, eval getNonce (exec (call_setter s) self) = Blob_new) /\
  (anyPending self = true -> eval getNonce self = Blob_new).
Proof.
  simpl.
  assert (Hinv : forall (l : list Call) (s : Interest),
             0 <= _getNonceChangeCount s <= _changeCount s ->
             0 <= _getNonceChangeCount (run l s) <= _changeCount (run l s)).
  { induction l as [| c l IH]; intros s Hs; simpl; [exact Hs |].
    apply IH. split; [| apply call_keeps_nonce_snapshot_behind; lia].
    destruct c as [st | nonce | | | | n | k | e]; simpl call.
    - destruct (call_setter_effect st s) as (_ & _ & Hg); lia.
    - destruct (setNonce_settles nonce s) as (_ & Hv & _ & Hlt); lia.
    - rewrite exec_then_ret.
      destruct (getNonce_settles s) as (_ & Hv & _ & Hc).
      pose proof (getChangeCount_ge s); lia.
    - rewrite exec_then_ret.
      destruct (getChangeCount_keeps_nonce s) as [_ Hg]; lia.
    - rewrite exec_then_ret, toUri_leaves_getNonce_state.
      destruct (getNonce_settles s) as (_ & Hv & _ & Hc).
      pose proof (getChangeCount_ge s); lia.
    - destruct s; simpl in *; lia.
    - destruct s; simpl in *; lia.
    - destruct s; simpl in *; lia. }
  pose proof (Hinv calls (Interest_init name) ltac:(simpl; lia)) as Hreach.
  split; [exact Hreach |]. split.
  - intros s. apply getNonce_stale.
    destruct (call_setter_effect s (run calls (Interest_init name))) as (Hc & _ & Hg). lia.
  - intros Hpending. apply pending_change_clears_nonce; [lia | exact Hpending].
Qed.


Lemma append_eq_self (a x : string) : a +s x = a -> x = ""%string.
Proof.
  induction a as [| c a IH]; simpl; intros H; [exact H |].
  injection H as H. now apply IH.
Qed.

Lemma segment_nil (key : string) (text : option string) :
  segment key text = [] <-> text = None.
Proof. destruct text; simpl; split; intros; congruence. Qed.

Lemma option_map_none (A B : Type) (f : A -> B) (o : option A) :
  option_map f o = None <-> o = None.
Proof. destruct o; simpl; split; intros; congruence. Qed.

(** X4: [toUri()] is the bare URI of the name, with no [?], exactly when
    no selector is set, mustBeFresh is false, the nonce as [getNonce()]
    reads it is empty and the exclusion filter has size 0; whatever
    [repr] and the escaping print. *)
Theorem toUri_bare_iff (self : Interest) :
  eval toUri self = Name_toUri (_target (_name self)) <->
  (_minSuffixComponents self = None /\
   _maxSuffixComponents self = None /\
   _childSelector self = None /\
   _mustBeFresh self = false /\
   _scope self = None /\
   _interestLifetimeMilliseconds self = None /\
   Blob_size (eval getNonce self) = 0%nat /\
   Exclude_size (_target (_exclude self)) = 0%nat).
Proof.
  rewrite toUri_form. unfold toUri_spec.
  assert (Hquery : forall segs : list string, query segs = ""%string <-> segs = []).
  { intros [| seg rest]; simpl; split; intros; congruence. }
  assert (Hbare : forall (a : string) (segs : list string),
             a +s query segs = a <-> segs = []).
  { intros a segs. rewrite <- Hquery. split.
    - apply append_eq_self.
    - intros ->. apply append_nil_r. }
  rewrite Hbare.
  unfold query_segments, selector_segments, nonce_segment, exclude_segment.
  assert (Happ : forall l r : list string, l ++ r = [] <-> l = [] /\ r = []).
  { intros l r; split; [apply app_eq_nil | intros [-> ->]; reflexivity]. }
  rewrite !Happ, !segment_nil, !option_map_none.
  destruct (_mustBeFresh self);
    destruct (Nat.ltb_spec 0 (Blob_size (eval getNonce self)));
    destruct (Nat.ltb_spec 0 (Exclude_size (_target (_exclude self))));
    intuition (try congruence; try lia).
Qed.

(** X5: [setName] and the six scalar setters store their argument where
    the getter finds it (a value that is no [Name] goes through
    [Name(...)], and [setInterestLifetimeMilliseconds(None)] stores
    [None]); [setKeyLocator] and [setExclude] store the default-built
    [KeyLocator()] and [Exclude()] whatever the argument; and every
    setter leaves what every other getter returns, and the stored nonce,
    as they were. *)
Theorem setter_then_getter :
  (forall (v : PyValue) (self : Interest),
      eval getName (exec (setName v) self) = as_Name v) /\
  (forall (v : option Z) (self : Interest),
      eval getMinSuffixComponents (exec (setMinSuffixComponents v) self) = v /\
      eval getMaxSuffixComponents (exec (setMaxSuffixComponents v) self) = v /\
      eval getChildSelector (exec (setChildSelector v) self) = v /\
      eval getScope (exec (setScope v) self) = v) /\
  (forall (v : bool) (self : Interest),
      eval getMustBeFresh (exec (setMustBeFresh v) self) = v) /\
  (forall (v : option float) (self : Interest),
      eval getInterestLifetimeMilliseconds
        (exec (setInterestLifetimeMilliseconds v) self) = v) /\
  (forall (v : PyValue) (self : Interest),
      eval getKeyLocator (exec (setKeyLocator v) self) = KeyLocator_new /\
      eval getExclude (exec (setExclude v) self) = Exclude_new) /\
  (forall (s : Setter) (self : Interest),
      let self' := exec (call_setter s) self in
      (setter_field s <> FName -> eval getName self' = eval getName self) /\
      (setter_field s <> FMinSuffixComponents ->
       eval getMinSuffixComponents self' = eval getMinSuffixComponents self) /\
      (setter_field s <> FMaxSuffixComponents ->
       eval getMaxSuffixComponents self' = eval getMaxSuffixComponents self) /\
      (setter_field s <> FKeyLocator ->
       eval getKeyLocator self' = eval getKeyLocator self) /\
      (setter_field s <> FExclude -> eval getExclude self' = eval getExclude self) /\
      (setter_field s <> FChildSelector ->
       eval getChildSelector self' = eval getChildSelector self) /\
      (setter_field s <> FMustBeFresh ->
       eval getMustBeFresh self' = eval getMustBeFresh self) /\
      (setter_field s <> FScope -> eval getScope self' = eval getScope self) /\
      (setter_field s <> FInterestLifetimeMilliseconds ->
       eval getInterestLifetimeMilliseconds self'
       = eval getInterestLifetimeMilliseconds self) /\
      _nonce self' = _nonce self).
Proof.
  split; [intros v self; now destruct self |].
  split; [intros v self; now destruct self |].
  split; [intros [] self; now destruct self |].
  split; [intros v self; now destruct self |].
  split; [intros v self; destruct self, v; split; reflexivity |].
  intros s self; simpl.
  destruct self; destruct s; simpl; repeat split; intros H;
    try reflexivity; now contradiction H.
Qed.

(** X6: on a packet whose nonce snapshot is not ahead of its change
    count, a second assignment to a field overrides the first: the
    assigned fields and [toUri()] are those of the packet on which only
    the second call was made. *)
Theorem later_assignment_wins (s1 s2 : Setter) (self : Interest) :
  setter_field s1 = setter_field s2 ->
  _getNonceChangeCount self <= _changeCount self ->
  same_fields (exec (call_setter s2) (exec (call_setter s1) self))
    (exec (call_setter s2) self) /\
  eval toUri (exec (call_setter s2) (exec (call_setter s1) self)) =
  eval toUri (exec (call_setter s2) self).
Proof.
  intros Hfield Hinv.
  assert (Hfields : same_fields (exec (call_setter s2) (exec (call_setter s1) self))
                      (exec (call_setter s2) self)).
  { destruct self as [[n sn] mn mx [k sk] [e se] ch mf no sc li gn cc].
    destruct s1, s2; try discriminate Hfield; unfold same_fields; simpl; repeat split. }
  split; [exact Hfields |].
  apply toUri_by_fields_and_nonce; [exact Hfields |].
  destruct (call_setter_effect s1 self) as (Hc1 & _ & Hg1).
  destruct (call_setter_effect s2 (exec (call_setter s1) self)) as (Hc12 & _ & Hg12).
  destruct (call_setter_effect s2 self) as (Hc2 & _ & Hg2).
  rewrite !getNonce_stale; [reflexivity | lia | lia].
Qed.

End Observations.

(** ** More of aes_algorithm.py: errors, edges and the cipher's blocks *)

Section CipherEdges.

Import AesAlgorithm.

Variable Cipher : Type.
Variable AES_new : list byte -> AesMode -> option (list byte) -> result Cipher.
Variable Cipher_encrypt : Cipher -> list byte -> result (list byte * Cipher).
Variable Cipher_decrypt : Cipher -> list byte -> result (list byte * Cipher).

Lemma pad_never_raises (plainData : list byte) :
  exists padBytes : list byte,
    pad plainData = Ok padBytes /\ length padBytes = padLength plainData.
Proof.
  destruct (removePad_after_pad plainData) as (padBytes & Hpad & Hrep & _).
  exists padBytes. split; [exact Hpad |].
  rewrite Hrep. apply repeat_length.
Qed.

(** X7: for an algorithm type other than AesEcb and AesCbc, [encrypt]
    and [decrypt] raise [RuntimeError("unsupported encryption mode")],
    whatever the key, the data and the cipher library; no cipher object
    is built and nothing is encrypted or decrypted. *)
Theorem unsupported_mode_raises (keyBits data : list byte) (params : EncryptParams) :
  getAlgorithmType params <> AesEcb ->
  getAlgorithmType params <> AesCbc ->
  encrypt AES_new Cipher_encrypt keyBits data params =
  Raise (RuntimeError "unsupported encryption mode") /\
  decrypt AES_new Cipher_decrypt keyBits data params =
  Raise (RuntimeError "unsupported encryption mode").
Proof.
  intros Hecb Hcbc.
  destruct (pad_never_raises data) as (padBytes & Hpad & _).
  unfold encrypt, decrypt, newCipher; rewrite Hpad; unfold result_bind.
  destruct (getAlgorithmType params); try (now contradiction); split; reflexivity.
Qed.

Lemma last_item_last (A : Type) (l : list A) (d : A) :
  l <> [] -> last_item l = Ok (last l d).
Proof.
  induction l as [| x l IH]; intros Hne; [now contradiction Hne |].
  destruct l as [| y l]; [reflexivity |].
  change (last_item (x :: y :: l)) with (last_item (y :: l)).
  change (last (x :: y :: l) d) with (last (y :: l) d).
  apply IH. discriminate.
Qed.

Lemma removePad_cases (resultWithPad : list byte) :
  resultWithPad <> [] ->
  let n := Byte.to_nat (last resultWithPad "000"%byte) in
  removePad resultWithPad =
  Ok (if (1 <=? n)%nat && (n <=? length resultWithPad)%nat
      then firstn (length resultWithPad - n) resultWithPad
      else []).
Proof.
  intros Hne; simpl.
  unfold removePad. rewrite (last_item_last "000"%byte Hne); unfold result_bind.
  unfold slice_until_neg.
  destruct (Byte.to_nat (last resultWithPad "000"%byte)) as [| m] eqn:Hn; [reflexivity |].
  destruct (Nat.leb_spec (S m) (length resultWithPad)) as [Hle | Hgt]; simpl.
  - reflexivity.
  - replace (length resultWithPad - S m)%nat with 0%nat by lia. reflexivity.
Qed.

(** X8: [decrypt] does not check the padding it removes.  On an empty
    decrypted buffer it fails with [IndexError]; otherwise it succeeds
    whatever the bytes are: with last byte [n] it returns the first
    [len - n] bytes when [1 <= n <= len], and the empty buffer when [n]
    is 0 (Python reads [-0] as [0]) or more than the length.  The result
    is always a proper prefix of the decrypted buffer. *)
Theorem decrypt_unpads_leniently
        (keyBits encryptedData resultWithPad : list byte) (params : EncryptParams)
        (cipher after : Cipher) :
  newCipher AES_new keyBits params = Ok cipher ->
  Cipher_decrypt cipher encryptedData = Ok (resultWithPad, after) ->
  let n := Byte.to_nat (last resultWithPad "000"%byte) in
  let out := decrypt AES_new Cipher_decrypt keyBits encryptedData params in
  (resultWithPad = [] -> out = Raise IndexError) /\
  (resultWithPad <> [] ->
   ((1 <= n <= length resultWithPad)%nat ->
    out = Ok (firstn (length resultWithPad - n) resultWithPad)) /\
   ((n = 0 \/ length resultWithPad < n)%nat -> out = Ok []) /\
   exists plain suffix : list byte,
     out = Ok plain /\ resultWithPad = plain ++ suffix /\ suffix <> []).
Proof.
  intros Hnew Hdec; simpl.
  unfold decrypt; rewrite Hnew; cbn [result_bind]; rewrite Hdec; cbn [result_bind].
  split; [intros ->; reflexivity |].
  intros Hne. rewrite (removePad_cases Hne); cbv zeta.
  set (n := Byte.to_nat (last resultWithPad "000"%byte)).
  assert (Hlen : (0 < length resultWithPad)%nat)
    by (destruct resultWithPad; [now contradiction Hne | simpl; lia]).
  split; [| split].
  - intros [H1 H2].
    apply Nat.leb_le in H1, H2. now rewrite H1, H2.
  - intros [H0 | Hgt].
    + rewrite H0. reflexivity.
    + apply Nat.leb_gt in Hgt. rewrite Hgt, andb_false_r. reflexivity.
  - destruct ((1 <=? n)%nat && (n <=? length resultWithPad)%nat) eqn:Hn.
    + apply andb_prop in Hn as [H1 H2]. apply Nat.leb_le in H1, H2.
      exists (firstn (length resultWithPad - n) resultWithPad),
        (skipn (length resultWithPad - n) resultWithPad).
      split; [reflexivity |]. split; [symmetry; apply firstn_skipn |].
      intros Hnil. apply (f_equal (@length byte)) in Hnil.
      rewrite length_skipn in Hnil. simpl in Hnil. lia.
    + exists [], resultWithPad. repeat split. exact Hne.
Qed.

(** What PyCrypto's ECB and CBC objects ask of their input: whole blocks
    of 16 bytes, returned as many bytes. *)
Hypothesis encrypt_whole_blocks :
  forall (c : Cipher) (data : list byte),
    length data mod 16 = 0 ->
    exists (out : list byte) (c' : Cipher),
      Cipher_encrypt c data = Ok (out, c') /\ length out = length data.

Hypothesis encrypt_rejects_partial_block :
  forall (c : Cipher) (data : list byte),
    length data mod 16 <> 0 -> Cipher_encrypt c data = Raise ValueError.

(** X9: [encrypt] hands the cipher the plain data and the pad apart.
    With a cipher object that takes whole blocks only, it raises
    [ValueError] for every plain data whose size is not a multiple of 16,
    and for a multiple of 16 it returns the size plus one block of 16
    bytes. *)
Theorem encrypt_needs_whole_blocks
        (keyBits plainData : list byte) (params : EncryptParams) (cipher : Cipher) :
  newCipher AES_new keyBits params = Ok cipher ->
  (length plainData mod 16 <> 0 ->
   encrypt AES_new Cipher_encrypt keyBits plainData params = Raise ValueError) /\
  (length plainData mod 16 = 0 ->
   exists encrypted : list byte,
     encrypt AES_new Cipher_encrypt keyBits plainData params = Ok encrypted /\
     length encrypted = length plainData + 16).
Proof.
  intros Hnew.
  destruct (pad_never_raises plainData) as (padBytes & Hpad & Hlen).
  unfold encrypt; rewrite Hpad; cbn [result_bind]; rewrite Hnew; cbn [result_bind].
  split.
  - intros Hpartial. now rewrite (encrypt_rejects_partial_block cipher _ Hpartial).
  - intros Hwhole.
    assert (Hfull : padLength plainData = 16) by (unfold padLength; rewrite Hwhole; lia).
    destruct (encrypt_whole_blocks cipher _ Hwhole) as (head & c1 & Hhead & Hheadlen).
    assert (Hpadwhole : length padBytes mod 16 = 0) by (rewrite Hlen, Hfull; reflexivity).
    destruct (encrypt_whole_blocks c1 _ Hpadwhole) as (tail & c2 & Htail & Htaillen).
    rewrite Hhead; cbn [result_bind]; rewrite Htail; cbn [result_bind].
    exists (head ++ tail). split; [reflexivity |].
    rewrite length_app. lia.
Qed.

End CipherEdges.

(** ** encrypt_error.py: the error codes *)

Section ErrorCodes.

Import EncryptError.

Local Open Scope Z_scope.

(** X10: no two error codes of [EncryptError.ErrorCode] hold the same
    integer, every one is positive, and [General] holds the greatest. *)
Theorem error_codes_distinct :
  (forall a b : ErrorCode, value a = value b -> a = b) /\
  (forall a : ErrorCode, 0 < value a <= value General).
Proof.
  split.
  - intros a b; destruct a, b; simpl; intros H; (reflexivity || discriminate H).
  - intros a; destruct a; simpl; lia.
Qed.

End ErrorCodes.

(** ** The key locator and the URI *)

Section KeyLocatorUri.

Context {ext : Collaborators}.

(** X12: the key locator never shows in the URI: on a packet that holds
    no nonce, [setKeyLocator] and a change of the key locator in place
    leave [toUri()] as it was. *)
Theorem toUri_ignores_keyLocator (self : Interest) :
  _nonce self = Blob_new ->
  (forall value : PyValue, eval toUri (exec (setKeyLocator value) self) = eval toUri self) /\
  (forall keyLocator : KeyLocator,
      eval toUri (exec (mutateKeyLocator keyLocator) self) = eval toUri self).
Proof.
  intros Hempty.
  assert (Hform : forall s : Interest, eval toUri s = toUri_spec s (eval getNonce s)).
  { intros s; unfold eval at 1; now rewrite toUri_unfold. }
  split.
  - intros value. rewrite !Hform, !getNonce_of_empty;
      [now destruct self, value | exact Hempty | now destruct self, value].
  - intros keyLocator. rewrite !Hform, !getNonce_of_empty;
      [now destruct self | exact Hempty | now destruct self].
Qed.

End KeyLocatorUri.

(** ** The added properties on concrete packets and buffers *)

Section ConcreteObservations.

Local Open Scope Z_scope.

Local Existing Instance demo_collaborators.

Lemma reads_do_not_disturb_witness :
  eval getNonce
    (run [CallToUri; CallGetChangeCount; CallGetNonce; CallToUri]
       (exec (setNonce nonce_A) demo_interest)) = ["A"%byte] /\
  eval toUri
    (run [CallToUri; CallGetChangeCount; CallGetNonce; CallToUri]
       (exec (setNonce nonce_A) demo_interest)) = "/a/b?ndn.Nonce=A"%string.
Proof.
  destruct (reads_do_not_disturb
              [CallToUri; CallGetChangeCount; CallGetNonce; CallToUri]
              (exec (setNonce nonce_A) demo_interest) eq_refl)
    as (_ & Hnonce & Huri & _).
  rewrite Hnonce, Huri. split; reflexivity.
Defined.

Lemma in_place_mutation_clears_nonce_witness :
  eval getNonce (exec (setNonce nonce_A) demo_interest) = ["A"%byte] /\
  eval getNonce (exec (mutateName name_a_b_c) (exec (setNonce nonce_A) demo_interest)) =
  Blob_new /\
  eval toUri (exec (mutateKeyLocator keyName_locator) (exec (setNonce nonce_A) demo_interest))
  = "/a/b"%string /\
  eval toUri (exec (mutateExclude exclude_c) (exec (setNonce nonce_A) demo_interest)) =
  "/a/b?ndn.Exclude=c"%string.
Proof.
  destruct (in_place_mutation_clears_nonce nonce_A demo_interest)
    as (Hname & HkeyLocator & Hexclude).
  split; [reflexivity |]. split; [| split].
  - apply Hname. vm_compute. discriminate.
  - destruct (HkeyLocator keyName_locator) as [_ Huri]; [vm_compute; discriminate |].
    rewrite Huri. reflexivity.
  - destruct (Hexclude exclude_c) as [_ Huri]; [vm_compute; discriminate |].
    rewrite Huri. reflexivity.
Defined.

Lemma nonce_snapshot_never_ahead_witness :
  anyPending
    (run [CallSetNonce nonce_A; MutateKeyLocator keyName_locator]
       (Interest_init (PyStr "/a/b"))) = true /\
  eval getNonce
    (run [CallSetNonce nonce_A; MutateKeyLocator keyName_locator]
       (Interest_init (PyStr "/a/b"))) = Blob_new.
Proof.
  split; [reflexivity |].
  destruct (nonce_snapshot_never_ahead (PyStr "/a/b")
              [CallSetNonce nonce_A; MutateKeyLocator keyName_locator])
    as (_ & _ & Hpending).
  apply Hpending. reflexivity.
Defined.

Lemma setter_then_getter_witness :
  eval getScope (exec (setChildSelector (Some 1)) (exec (setScope (Some 2)) demo_interest))
  = Some 2.
Proof.
  destruct setter_then_getter as (_ & Hscalar & _ & _ & _ & Hframe).
  destruct (Hframe (SetChildSelector (Some 1)) (exec (setScope (Some 2)) demo_interest))
    as (_ & _ & _ & _ & _ & _ & _ & Hscope & _).
  simpl in Hscope. rewrite Hscope by discriminate.
  apply Hscalar.
Defined.

Lemma later_assignment_wins_witness :
  eval toUri (exec (setScope (Some 2)) (exec (setScope (Some 1)) demo_interest)) =
  eval toUri (exec (setScope (Some 2)) demo_interest).
Proof.
  apply (later_assignment_wins (SetScope (Some 1)) (SetScope (Some 2)) demo_interest).
  - reflexivity.
  - vm_compute. discriminate.
Defined.

Lemma unsupported_mode_raises_witness :
  AesAlgorithm.encrypt (fun _ _ _ => Ok tt) whole_blocks_only [] ["h"; "i"]%byte
    (AesAlgorithm.mkEncryptParams AesAlgorithm.RsaOaep []) =
  Raise (RuntimeError "unsupported encryption mode") /\
  AesAlgorithm.decrypt (fun _ _ _ => Ok tt) whole_blocks_only [] ["h"; "i"]%byte
    (AesAlgorithm.mkEncryptParams AesAlgorithm.RsaOaep []) =
  Raise (RuntimeError "unsupported encryption mode").
Proof.
  apply unsupported_mode_raises; discriminate.
Defined.

Lemma decrypt_unpads_leniently_witness :
  AesAlgorithm.decrypt (fun _ _ _ => Ok tt) (fun (c : unit) data => Ok (data, c)) []
    ["h"; "i"; "000"]%byte (AesAlgorithm.mkEncryptParams AesAlgorithm.AesEcb []) = Ok [] /\
  AesAlgorithm.decrypt (fun _ _ _ => Ok tt) (fun (c : unit) data => Ok (data, c)) []
    ["h"; "i"; "002"]%byte (AesAlgorithm.mkEncryptParams AesAlgorithm.AesCbc []) =
  Ok ["h"%byte] /\
  AesAlgorithm.decrypt (fun _ _ _ => Ok tt) (fun (c : unit) data => Ok (data, c)) []
    [] (AesAlgorithm.mkEncryptParams AesAlgorithm.AesEcb []) = Raise IndexError.
Proof.
  split; [| split].
  - destruct (@decrypt_unpads_leniently unit (fun _ _ _ => Ok tt)
                (fun (c : unit) data => Ok (data, c)) [] ["h"; "i"; "000"]%byte
                ["h"; "i"; "000"]%byte (AesAlgorithm.mkEncryptParams AesAlgorithm.AesEcb [])
                tt tt eq_refl eq_refl) as (_ & Hsome).
    destruct (Hsome ltac:(discriminate)) as (_ & Hzero & _).
    apply Hzero. left. reflexivity.
  - destruct (@decrypt_unpads_leniently unit (fun _ _ _ => Ok tt)
                (fun (c : unit) data => Ok (data, c)) [] ["h"; "i"; "002"]%byte
                ["h"; "i"; "002"]%byte (AesAlgorithm.mkEncryptParams AesAlgorithm.AesCbc [])
                tt tt eq_refl eq_refl) as (_ & Hsome).
    destruct (Hsome ltac:(discriminate)) as (Hin & _ & _).
    apply Hin. simpl. lia.
  - destruct (@decrypt_unpads_leniently unit (fun _ _ _ => Ok tt)
                (fun (c : unit) data => Ok (data, c)) [] [] []
                (AesAlgorithm.mkEncryptParams AesAlgorithm.AesEcb [])
                tt tt eq_refl eq_refl) as (Hempty & _).
    apply Hempty. reflexivity.
Defined.

Lemma encrypt_needs_whole_blocks_witness :
  AesAlgorithm.encrypt (fun _ _ _ => Ok tt) whole_blocks_only [] ["h"; "i"]%byte
    (AesAlgorithm.mkEncryptParams AesAlgorithm.AesEcb []) = Raise ValueError /\
  AesAlgorithm.encrypt (fun _ _ _ => Ok tt) whole_blocks_only [] (repeat "a"%byte 16)
    (AesAlgorithm.mkEncryptParams AesAlgorithm.AesEcb []) =
  Ok (repeat "a"%byte 16 ++ repeat "016"%byte 16).
Proof.
  assert (Hwhole : forall (c : unit) (data : list byte),
             (length data mod 16 = 0)%nat ->
             exists (out : list byte) (c' : unit),
               whole_blocks_only c data = Ok (out, c') /\ length out = length data).
  { intros c data H. exists data, c. unfold whole_blocks_only.
    apply Nat.eqb_eq in H. rewrite H. split; reflexivity. }
  assert (Hpartial : forall (c : unit) (data : list byte),
             (length data mod 16 <> 0)%nat -> whole_blocks_only c data = Raise ValueError).
  { intros c data H. unfold whole_blocks_only.
    apply Nat.eqb_neq in H. rewrite H. reflexivity. }
  split.
  - apply (@encrypt_needs_whole_blocks unit (fun _ _ _ => Ok tt) whole_blocks_only
             Hwhole Hpartial [] ["h"; "i"]%byte
             (AesAlgorithm.mkEncryptParams AesAlgorithm.AesEcb []) tt eq_refl).
    simpl. discriminate.
  - destruct (@encrypt_needs_whole_blocks unit (fun _ _ _ => Ok tt) whole_blocks_only
                Hwhole Hpartial [] (repeat "a"%byte 16)
                (AesAlgorithm.mkEncryptParams AesAlgorithm.AesEcb []) tt eq_refl)
      as [_ Hok].
    destruct (Hok eq_refl) as (encrypted & Henc & _).
    rewrite Henc. vm_compute in Henc. injection Henc as <-. reflexivity.
Defined.

Lemma toUri_ignores_keyLocator_witness :
  eval toUri (exec (mutateKeyLocator keyName_locator) demo_interest) = "/a/b"%string /\
  eval toUri (exec (setKeyLocator (PyKeyLocator keyName_locator)) demo_interest) =
  "/a/b"%string.
Proof.
  destruct (toUri_ignores_keyLocator demo_interest eq_refl) as [Hset Hmut].
  rewrite Hmut, Hset. split; reflexivity.
Defined.

Lemma encrypt_pads_and_decrypt_unpads_witness :
  AesAlgorithm.encrypt (fun _ _ _ => Ok tt) (fun (c : unit) data => Ok (data, c)) []
    ["h"; "e"; "l"; "l"; "o"]%byte (AesAlgorithm.mkEncryptParams AesAlgorithm.AesCbc []) =
  Ok (["h"; "e"; "l"; "l"; "o"]%byte ++ repeat "011"%byte 11) /\
  AesAlgorithm.decrypt (fun _ _ _ => Ok tt) (fun (c : unit) data => Ok (data, c)) []
    (["h"; "e"; "l"; "l"; "o"]%byte ++ repeat "011"%byte 11)
    (AesAlgorithm.mkEncryptParams AesAlgorithm.AesCbc []) =
  Ok ["h"; "e"; "l"; "l"; "o"]%byte.
Proof.
  destruct (@encrypt_pads_and_decrypt_unpads unit (fun _ _ _ => Ok tt)
              (fun (c : unit) data => Ok (data, c)) (fun (c : unit) data => Ok (data, c))
              [] ["h"; "e"; "l"; "l"; "o"]%byte
              (AesAlgorithm.mkEncryptParams AesAlgorithm.AesCbc []))
    as (_ & _ & padBytes & Hpad & _ & _ & _ & _ & Henc & Hdec).
  assert (Hbytes : padBytes = repeat "011"%byte 11).
  { vm_compute in Hpad. now injection Hpad as <-. }
  subst padBytes.
  split.
  - rewrite Henc. reflexivity.
  - apply (Hdec _ tt tt); reflexivity.
Defined.

End ConcreteObservations.
